(** * QuickResizer: the image processing utilities of [image_processing.py]

    A shallow embedding of the module's functions, with the PIL and zipfile
    calls it makes modelled by their interface, and the properties the
    specification states about them. *)

From Stdlib Require Import ZArith NArith Lia Bool List Ascii String.
From Stdlib Require Import SpecFloat.
Import ListNotations.

Local Open Scope string_scope.
Local Open Scope Z_scope.

(** ** Python exceptions and fallible results *)

Inductive exn : Type :=
| ValueError (msg : string)
| ZeroDivisionError (msg : string)
| OverflowError (msg : string)
| KeyError (msg : string)
| UnidentifiedImageError (msg : string)
| OSError (msg : string).

Inductive result (A : Type) : Type :=
| Ok (a : A)
| Raise (e : exn).

Arguments Ok {A} a.
Arguments Raise {A} e.

Definition bind {A B : Type} (r : result A) (k : A -> result B) : result B :=
  match r with
  | Ok a => k a
  | Raise e => Raise e
  end.

Notation "x <- r ;; k" := (bind r (fun x => k))
  (at level 61, r at next level, right associativity).
Notation "' p <- r ;; k" := (bind r (fun p => k))
  (at level 61, p pattern, r at next level, right associativity).

Definition is_ok {A : Type} (r : result A) : bool :=
  match r with Ok _ => true | Raise _ => false end.

(** ** Python strings

    A [str] is modelled by its UTF-8 bytes. The case mappings act on the
    ASCII letters, which is what [str.upper] and [str.lower] do on them; no
    other character is mapped to one of the letters of the format names, so
    the lookups in [format_map] are the same on the bytes. *)

Module PyStr.

Definition truthy (s : string) : bool :=
  match s with EmptyString => false | String _ _ => true end.

(** [c in s] for a one-character [c]. *)
Fixpoint contains (c : ascii) (s : string) : bool :=
  match s with
  | EmptyString => false
  | String a r => if Ascii.eqb a c then true else contains c r
  end.

(** The split point of [s.rsplit(c, 1)]: the text before the last [c] and
    the text after it, when [c] occurs. *)
Fixpoint rsplit_once (c : ascii) (s : string) : option (string * string) :=
  match s with
  | EmptyString => None
  | String a r =>
      match rsplit_once c r with
      | Some (h, t) => Some (String a h, t)
      | None => if Ascii.eqb a c then Some (EmptyString, r) else None
      end
  end.

(** [s.rsplit(c, 1)]: one or two parts. *)
Definition rsplit1 (c : ascii) (s : string) : list string :=
  match rsplit_once c s with
  | Some (h, t) => [h; t]
  | None => [s]
  end.

(** [parts[i]] and [parts[-1]] on the lists [rsplit1] returns. *)
Definition item (parts : list string) (i : nat) : string := nth i parts "".
Definition last_item (parts : list string) : string := List.last parts "".

Definition upper_ascii (a : ascii) : ascii :=
  let n := nat_of_ascii a in
  if andb (Nat.leb 97 n) (Nat.leb n 122) then ascii_of_nat (n - 32)%nat else a.

Definition lower_ascii (a : ascii) : ascii :=
  let n := nat_of_ascii a in
  if andb (Nat.leb 65 n) (Nat.leb n 90) then ascii_of_nat (n + 32)%nat else a.

Fixpoint upper (s : string) : string :=
  match s with
  | EmptyString => EmptyString
  | String a r => String (upper_ascii a) (upper r)
  end.

Fixpoint lower (s : string) : string :=
  match s with
  | EmptyString => EmptyString
  | String a r => String (lower_ascii a) (lower r)
  end.

Fixpoint repeat_char (c : ascii) (n : nat) : string :=
  match n with
  | O => EmptyString
  | S k => String c (repeat_char c k)
  end.

Definition digit_char (d : nat) : ascii := ascii_of_nat (48 + d)%nat.

(** Decimal digits of a natural number, most significant first. *)
Fixpoint digits_fuel (fuel : nat) (n : N) (acc : string) : string :=
  match fuel with
  | O => acc
  | S f =>
      let acc' := String (digit_char (N.to_nat (N.modulo n 10%N))) acc in
      if N.ltb n 10%N then acc' else digits_fuel f (N.div n 10%N) acc'
  end.

Definition digits (n : N) : string :=
  digits_fuel (S (N.to_nat (N.log2 n))) n EmptyString.

(** [format(n, "04d")]: sign-aware zero padding to a width of four. *)
Definition format_04d (n : Z) : string :=
  let sign := if (n <? 0)%Z then "-" else "" in
  let body := digits (Z.abs_N n) in
  sign ++ repeat_char "0" (4 - String.length sign - String.length body)%nat
       ++ body.

End PyStr.

(** ** Filename generation *)

Definition generate_filename (original_name : string) (index : Z)
    (prefix suffix : string) (use_numbering : bool)
    (extension : option string) : string :=
  let '(base_name, orig_ext) :=
    if PyStr.contains "." original_name then
      let name_parts := PyStr.rsplit1 "." original_name in
      (PyStr.item name_parts 0, "." ++ PyStr.item name_parts 1)
    else (original_name, "") in
  let new_name := prefix ++ base_name ++ suffix in
  let new_name :=
    if use_numbering then new_name ++ "_" ++ PyStr.format_04d index
    else new_name in
  let final_ext :=
    match extension with
    | Some e => if PyStr.truthy e then e else orig_ext
    | None => orig_ext
    end in
  new_name ++ final_ext.


(** ** Python floats

    A Python [float] is an IEEE 754 binary64 value; the operations below are
    the ones the resize code uses, with the exceptions Python raises. *)

Module PyFloat.

Definition prec : Z := 53.
Definition emax : Z := 1024.

(** [float(n)], as the mixed operations [n * x] and [n / x] apply it. *)
Definition of_int (n : Z) : result spec_float :=
  match binary_normalize prec emax n 0 false with
  | S754_infinity _ => Raise (OverflowError "int too large to convert to float")
  | f => Ok f
  end.

(** [a / b] on two ints: the correctly rounded quotient. *)
Definition int_truediv (a b : Z) : result spec_float :=
  if (b =? 0)%Z then Raise (ZeroDivisionError "division by zero")
  else if (a =? 0)%Z then Ok (S754_zero (b <? 0)%Z)
  else
    let '(m, e, l) := SFdiv_core_binary prec emax (Z.abs a) 0 (Z.abs b) 0 in
    match binary_round_aux prec emax (xorb (a <? 0)%Z (b <? 0)%Z) m e l with
    | S754_infinity _ =>
        Raise (OverflowError "integer division result too large for a float")
    | f => Ok f
    end.

(** [n * x] with an int [n] and a float [x]. *)
Definition int_mul (n : Z) (x : spec_float) : result spec_float :=
  f <- of_int n ;; Ok (SFmul prec emax f x).

(** [n / x] with an int [n] and a float [x]. *)
Definition int_div (n : Z) (x : spec_float) : result spec_float :=
  f <- of_int n ;;
  match x with
  | S754_zero _ => Raise (ZeroDivisionError "float division by zero")
  | _ => Ok (SFdiv prec emax f x)
  end.

(** [min(a, b)]: the second argument only when it is smaller. *)
Definition min (a b : spec_float) : spec_float :=
  if SFltb b a then b else a.

(** [a > b]. *)
Definition gt (a b : spec_float) : bool := SFltb b a.

(** [int(x)]: truncation towards zero. *)
Definition to_int (x : spec_float) : result Z :=
  match x with
  | S754_zero _ => Ok 0%Z
  | S754_infinity _ =>
      Raise (OverflowError "cannot convert float infinity to integer")
  | S754_nan => Raise (ValueError "cannot convert float NaN to integer")
  | S754_finite s m e =>
      let mag := Z.shiftl (Zpos m) e in
      Ok (if s then (- mag)%Z else mag)
  end.

End PyFloat.

(** ** PIL images

    An image has a mode, a size and its pixels. A pixel is kept as the RGBA
    value the image shows there (what [convert('RGBA')] yields); a mode
    without transparency shows every pixel opaque. *)

Inductive Mode : Type :=
| M_1 | M_L | M_P | M_RGB | M_RGBA | M_CMYK | M_YCbCr | M_LAB | M_HSV
| M_I | M_F | M_LA | M_PA | M_RGBX | M_RGBa | M_La | M_I16.

Definition mode_name (m : Mode) : string :=
  match m with
  | M_1 => "1" | M_L => "L" | M_P => "P" | M_RGB => "RGB" | M_RGBA => "RGBA"
  | M_CMYK => "CMYK" | M_YCbCr => "YCbCr" | M_LAB => "LAB" | M_HSV => "HSV"
  | M_I => "I" | M_F => "F" | M_LA => "LA" | M_PA => "PA" | M_RGBX => "RGBX"
  | M_RGBa => "RGBa" | M_La => "La" | M_I16 => "I;16"
  end.

(** [len(image.getbands())]. *)
Definition bands (m : Mode) : nat :=
  match m with
  | M_1 | M_L | M_P | M_I | M_F | M_I16 => 1
  | M_LA | M_PA | M_La => 2
  | M_RGB | M_YCbCr | M_LAB | M_HSV => 3
  | M_RGBA | M_CMYK | M_RGBX | M_RGBa => 4
  end.

(** Modes whose pixels can be transparent: an alpha band, or a palette
    with transparency. *)
Definition carries_alpha (m : Mode) : bool :=
  match m with
  | M_RGBA | M_LA | M_PA | M_RGBa | M_La | M_P => true
  | _ => false
  end.

Record Color : Type := mkColor { cr : Z; cg : Z; cb : Z; ca : Z }.

Definition white : Color := mkColor 255 255 255 255.
Definition blank : Color := mkColor 0 0 0 0.

Record Image : Type := mkImage {
  mode : Mode;
  width : N;
  height : N;
  px : Z -> Z -> Color
}.

Definition size (im : Image) : Z * Z := (Z.of_N (width im), Z.of_N (height im)).

Definition bytes : Type := list Byte.byte.

(** [image.mode == m] and [image.mode in (...)], on the mode strings. *)
Definition mode_is (im : Image) (m : string) : bool :=
  String.eqb (mode_name (mode im)) m.

Definition mode_in (im : Image) (ms : list string) : bool :=
  existsb (String.eqb (mode_name (mode im))) ms.

Module PILImage.

Definition inside (im : Image) (x y : Z) : bool :=
  ((0 <=? x) && (x <? Z.of_N (width im)) && (0 <=? y) && (y <? Z.of_N (height im)))%Z.

Definition opaque (c : Color) : Color := mkColor (cr c) (cg c) (cb c) 255.

(** [Image.new(mode, size, color)]. *)
Definition new (m : Mode) (sz : Z * Z) (c : Color) : result Image :=
  let '(w, h) := sz in
  if ((w <? 0) || (h <? 0))%Z then
    Raise (ValueError "Width and height must be >= 0")
  else Ok (mkImage m (Z.to_N w) (Z.to_N h) (fun _ _ => c)).

(** [image.convert(m)]: same size, same picture; transparency survives only
    between modes that both carry it. *)
Definition convert (im : Image) (m : Mode) : Image :=
  mkImage m (width im) (height im)
    (if carries_alpha m && carries_alpha (mode im) then px im
     else fun x y => opaque (px im x y)).

(** [image.split()[-1]]: the values of the last band (the alpha band of
    RGBA and LA, the blue band of RGB). *)
Definition last_band (im : Image) : Z -> Z -> Z :=
  match mode im with
  | M_RGBA | M_LA | M_PA | M_RGBa | M_La => fun x y => ca (px im x y)
  | _ => fun x y => cb (px im x y)
  end.

(** The 8-bit blend of [paste] with an L mask:
    [(dst * (255 - mask) + src * mask) / 255], rounded. *)
Definition blend8 (mask dst src : Z) : Z :=
  let t := (dst * (255 - mask) + src * mask + 128)%Z in
  Z.shiftr (Z.shiftr t 8 + t) 8.

(** [dst.paste(src, mask=mask)] into an RGB image, at the origin. *)
Definition paste_mask (dst src : Image) (mask : Z -> Z -> Z) : Image :=
  mkImage (mode dst) (width dst) (height dst)
    (fun x y =>
       if inside src x y then
         let d := px dst x y in
         let s := px src x y in
         let a := mask x y in
         mkColor (blend8 a (cr d) (cr s)) (blend8 a (cg d) (cg s))
                 (blend8 a (cb d) (cb s)) (ca d)
       else px dst x y).

(** [dst.paste(src, (x0, y0))]. *)
Definition paste (dst src : Image) (at_ : Z * Z) : Image :=
  let '(x0, y0) := at_ in
  mkImage (mode dst) (width dst) (height dst)
    (fun x y =>
       if inside src (x - x0) (y - y0) then
         (if carries_alpha (mode dst) then px src (x - x0) (y - y0)
          else opaque (px src (x - x0) (y - y0)))
       else px dst x y).

(** [image.crop((left, upper, right, lower))]. *)
Definition crop (im : Image) (box : Z * Z * Z * Z) : result Image :=
  let '(x0, y0, x1, y1) := box in
  if (x1 <? x0)%Z then
    Raise (ValueError "Coordinate 'right' is less than 'left'")
  else if (y1 <? y0)%Z then
    Raise (ValueError "Coordinate 'lower' is less than 'upper'")
  else
    Ok (mkImage (mode im) (Z.to_N (x1 - x0)) (Z.to_N (y1 - y0))
          (fun x y =>
             if inside im (x + x0) (y + y0) then px im (x + x0) (y + y0)
             else if carries_alpha (mode im) then blank else opaque blank)).

End PILImage.

(** The arguments [process_image] passes to [Image.save]. *)
Record SaveArgs : Type := mkSaveArgs {
  save_format : string;
  save_quality : option Z;
  save_optimize : option bool
}.

(** What the model takes from PIL as given: [Image.open] (the picture the
    bytes hold, or the exception raised for bytes it does not identify; the
    pixel data PIL loads on first use is taken to load), the encoder behind
    [Image.save], and the Lanczos filter behind [Image.resize] (the pixels
    of the resized picture). *)
Record PIL : Type := mkPIL {
  image_open : bytes -> result Image;
  image_save : Image -> SaveArgs -> result bytes;
  lanczos : Image -> Z -> Z -> (Z -> Z -> Color)
}.

(** [image.resize(size, Image.LANCZOS)]: a copy when the size is the
    image's own; a requested width or height below 1 is refused. *)
Definition pil_resize (pil : PIL) (im : Image) (sz : Z * Z) : result Image :=
  let '(w, h) := sz in
  if ((fst (size im) =? w) && (snd (size im) =? h))%Z then Ok im
  else if ((w <? 1) || (h <? 1))%Z then
    Raise (ValueError "height and width must be > 0")
  else Ok (mkImage (mode im) (Z.to_N w) (Z.to_N h) (lanczos pil im w h)).

(** ** Presets *)

Inductive ResizePreset : Type :=
| SQUARE_1080
| HD_1080P
| PASSPORT
| CUSTOM.

(** The dict [PRESET_DIMENSIONS]: (width, height) of the fixed presets. *)
Definition PRESET_DIMENSIONS (preset : ResizePreset) : option (Z * Z) :=
  match preset with
  | SQUARE_1080 => Some (1080, 1080)
  | HD_1080P => Some (1920, 1080)
  | PASSPORT => Some (413, 531)
  | CUSTOM => None
  end.

Definition get_preset_dimensions (preset : ResizePreset)
    (custom_size : option (Z * Z)) : result (Z * Z) :=
  match preset with
  | CUSTOM =>
      match custom_size with
      | None => Raise (ValueError "Custom size must be provided for CUSTOM preset")
      | Some sz => Ok sz
      end
  | _ =>
      match PRESET_DIMENSIONS preset with
      | Some sz => Ok sz
      | None => Raise (KeyError "ResizePreset")
      end
  end.

(** ** Resizing *)

(** The head of [resize_image]: any mode to RGB, a transparent one over a
    white background. *)
Definition resize_image_to_rgb (image : Image) : result Image :=
  if mode_in image ["RGBA"; "P"; "LA"] then
    background <- PILImage.new M_RGB (size image) (mkColor 255 255 255 255) ;;
    let image := if mode_is image "P" then PILImage.convert image M_RGBA
                 else image in
    if PyStr.contains "A" (mode_name (mode image)) then
      Ok (PILImage.paste_mask background image (PILImage.last_band image))
    else Ok (PILImage.convert image M_RGB)
  else if negb (mode_is image "RGB") then Ok (PILImage.convert image M_RGB)
  else Ok image.

Section WithPIL.

Variable pil : PIL.

Definition resize_image (image : Image) (preset : ResizePreset)
    (custom_size : option (Z * Z)) (maintain_aspect : bool) : result Image :=
  '(target_width, target_height) <- get_preset_dimensions preset custom_size ;;
  image <- resize_image_to_rgb image ;;
  if maintain_aspect then
    let '(original_width, original_height) := size image in
    rw <- PyFloat.int_truediv target_width original_width ;;
    rh <- PyFloat.int_truediv target_height original_height ;;
    let ratio := PyFloat.min rw rh in
    new_w <- (x <- PyFloat.int_mul original_width ratio ;; PyFloat.to_int x) ;;
    new_h <- (y <- PyFloat.int_mul original_height ratio ;; PyFloat.to_int y) ;;
    resized <- pil_resize pil image (new_w, new_h) ;;
    canvas <- PILImage.new M_RGB (target_width, target_height)
                (mkColor 255 255 255 255) ;;
    let paste_x := (target_width - new_w) / 2 in
    let paste_y := (target_height - new_h) / 2 in
    Ok (PILImage.paste canvas resized (paste_x, paste_y))
  else pil_resize pil image (target_width, target_height).

Definition crop_to_aspect (image : Image) (target_width target_height : Z)
    : result Image :=
  target_ratio <- PyFloat.int_truediv target_width target_height ;;
  let '(original_width, original_height) := size image in
  original_ratio <- PyFloat.int_truediv original_width original_height ;;
  image <-
    (if PyFloat.gt original_ratio target_ratio then
       new_width <- (x <- PyFloat.int_mul original_height target_ratio ;;
                     PyFloat.to_int x) ;;
       let left_ := (original_width - new_width) / 2 in
       PILImage.crop image (left_, 0, left_ + new_width, original_height)
     else
       new_height <- (y <- PyFloat.int_div original_width target_ratio ;;
                      PyFloat.to_int y) ;;
       let top := (original_height - new_height) / 2 in
       PILImage.crop image (0, top, original_width, top + new_height)) ;;
  pil_resize pil image (target_width, target_height).

End WithPIL.

(** ** Format conversion *)

(** The dict [format_map]: format name to (extension, mode). *)
Definition format_map : list (string * (string * Mode)) :=
  [ ("JPEG", (".jpg", M_RGB));
    ("JPG", (".jpg", M_RGB));
    ("PNG", (".png", M_RGBA));
    ("WEBP", (".webp", M_RGBA)) ].

Fixpoint dict_get {V : Type} (d : list (string * V)) (k : string) : option V :=
  match d with
  | [] => None
  | (k', v) :: r => if String.eqb k k' then Some v else dict_get r k
  end.

Definition convert_format (image : Image) (target_format : string)
    : result (Image * string) :=
  let target_upper := PyStr.upper target_format in
  match dict_get format_map target_upper with
  | None => Raise (ValueError ("Unsupported format: " ++ target_format))
  | Some (extension, m) =>
      image <-
        (if String.eqb (mode_name m) "RGB" && mode_in image ["RGBA"; "P"; "LA"] then
           background <- PILImage.new M_RGB (size image) (mkColor 255 255 255 255) ;;
           let image := if mode_is image "P" then PILImage.convert image M_RGBA
                        else image in
           if PyStr.contains "A" (mode_name (mode image)) then
             Ok (PILImage.paste_mask background image (PILImage.last_band image))
           else Ok (PILImage.convert image M_RGB)
         else if String.eqb (mode_name m) "RGBA"
                 && negb (mode_in image ["RGBA"; "LA"]) then
           if mode_is image "P" then Ok (PILImage.convert image M_RGBA)
           else if mode_is image "RGB" then Ok (PILImage.convert image M_RGBA)
           else Ok image
         else Ok image) ;;
      Ok (image, extension)
  end.

(** ** Processing one image *)

(** The transparency handling of [process_image] before a crop. *)
Definition process_image_to_rgb (image : Image) : result Image :=
  if mode_in image ["RGBA"; "P"; "LA"] then
    background <- PILImage.new M_RGB (size image) (mkColor 255 255 255 255) ;;
    let image := if mode_is image "P" then PILImage.convert image M_RGBA
                 else image in
    if PyStr.contains "A" (mode_name (mode image)) then
      Ok (PILImage.paste_mask background image (PILImage.last_band image))
    else Ok image
  else if negb (mode_is image "RGB") then Ok (PILImage.convert image M_RGB)
  else Ok image.

(** [None] and the empty string both count as no format requested. *)
Definition requested (target_format : option string) : option string :=
  match target_format with
  | Some f => if PyStr.truthy f then Some f else None
  | None => None
  end.

Definition jpg_as_jpeg (fmt : string) : string :=
  if String.eqb fmt "JPG" then "JPEG" else fmt.

Section Processing.

Variable pil : PIL.

(** [process_image] up to the call of [save]: the image handed to the
    encoder, the encoder's arguments and the extension. *)
Definition process_image_prepare (image_data : bytes) (filename : string)
    (preset : ResizePreset) (custom_size : option (Z * Z))
    (target_format : option string) (maintain_aspect crop_to_fit : bool)
    (quality : Z) : result (Image * SaveArgs * string) :=
  image <- image_open pil image_data ;;
  '(target_width, target_height) <- get_preset_dimensions preset custom_size ;;
  processed <-
    (if crop_to_fit then
       image <- process_image_to_rgb image ;;
       crop_to_aspect pil image target_width target_height
     else resize_image pil image preset custom_size maintain_aspect) ;;
  '(processed, extension, fmt) <-
    (match requested target_format with
     | Some f =>
         '(processed, extension) <- convert_format processed f ;;
         Ok (processed, extension, jpg_as_jpeg (PyStr.upper f))
     | None =>
         let orig_ext :=
           if PyStr.contains "." filename then
             PyStr.lower (PyStr.last_item (PyStr.rsplit1 "." filename))
           else "png" in
         Ok (processed, "." ++ orig_ext, jpg_as_jpeg (PyStr.upper orig_ext))
     end) ;;
  let save_kwargs :=
    if String.eqb fmt "JPEG" || String.eqb fmt "WEBP" then
      mkSaveArgs fmt (Some quality) (Some true)
    else if String.eqb fmt "PNG" then mkSaveArgs fmt None (Some true)
    else mkSaveArgs fmt None None in
  let processed :=
    if String.eqb fmt "JPEG" && negb (mode_is processed "RGB") then
      PILImage.convert processed M_RGB
    else processed in
  Ok (processed, save_kwargs, extension).

Definition process_image (image_data : bytes) (filename : string)
    (preset : ResizePreset) (custom_size : option (Z * Z))
    (target_format : option string) (maintain_aspect crop_to_fit : bool)
    (quality : Z) : result (bytes * string) :=
  '(processed, save_kwargs, extension) <-
    process_image_prepare image_data filename preset custom_size
      target_format maintain_aspect crop_to_fit quality ;;
  output <- image_save pil processed save_kwargs ;;
  Ok (output, extension).

End Processing.

(** ** Batch processing

    The loop runs in a trace: one [EvProcess] when [process_image] is called
    on an item, one [EvProgress] when the progress callback is called. A
    raised exception leaves the loop at once; the trace up to it is kept,
    the results gathered so far are not. *)

Record ImageItem : Type := mkItem { data : bytes; name : string }.

Inductive event : Type :=
| EvProcess (idx : Z) (filename : string)
| EvProgress (current total : Z).

Fixpoint enumerate {A : Type} (start : Z) (l : list A) : list (Z * A) :=
  match l with
  | [] => []
  | a :: r => (start, a) :: enumerate (start + 1) r
  end.

Section Batch.

Variable pil : PIL.
Variable preset : ResizePreset.
Variable custom_size : option (Z * Z).
Variable target_format : option string.
Variable maintain_aspect crop_to_fit : bool.
Variable quality : Z.
Variable prefix suffix : string.
Variable use_numbering : bool.
(** Whether a [progress_callback] was passed. *)
Variable progress_callback : bool.

Fixpoint batch_loop (total : Z) (items : list (Z * ImageItem))
    (results : list (bytes * string)) (trace : list event)
    : list event * result (list (bytes * string)) :=
  match items with
  | [] => (trace, Ok results)
  | (idx, img_dict) :: rest =>
      let trace := (trace ++ [EvProcess idx (name img_dict)])%list in
      match process_image pil (data img_dict) (name img_dict) preset
              custom_size target_format maintain_aspect crop_to_fit quality with
      | Raise e => (trace, Raise e)
      | Ok (processed_data, extension) =>
          let new_filename :=
            generate_filename (name img_dict) (idx + 1) prefix suffix
              use_numbering (Some extension) in
          let results := (results ++ [(processed_data, new_filename)])%list in
          let trace :=
            if progress_callback then (trace ++ [EvProgress (idx + 1) total])%list
            else trace in
          batch_loop total rest results trace
      end
  end.

Definition batch_process (images : list ImageItem)
    : list event * result (list (bytes * string)) :=
  batch_loop (Z.of_nat (List.length images)) (enumerate 0 images) [] [].

End Batch.

(** ** The archive

    [create_zip] returns the bytes of the archive; the model keeps the
    archive those bytes hold, as the entries written to it. *)

Definition ZIP_STORED : Z := 0.
Definition ZIP_DEFLATED : Z := 8.

Record ZipInfo : Type := mkZipInfo {
  zi_filename : string;
  zi_compress_type : Z;
  zi_data : bytes
}.

Record ZipFile : Type := mkZipFile {
  zf_compression : Z;
  zf_filelist : list ZipInfo
}.

(** [zip_file.writestr(arcname, data)]: one more entry under the name
    given, compressed with the archive's method. A name that is already in
    the archive is written again, as a second entry. *)
Definition writestr (zf : ZipFile) (arcname : string) (content : bytes) : ZipFile :=
  mkZipFile (zf_compression zf)
    (zf_filelist zf ++ [mkZipInfo arcname (zf_compression zf) content])%list.

Definition create_zip (processed_images : list (bytes * string)) : ZipFile :=
  fold_left
    (fun zip_file '(image_data, filename) => writestr zip_file filename image_data)
    processed_images (mkZipFile ZIP_DEFLATED []).

(** ** The filename rule in the specification's words

    Strip the text after the last '.', put prefix and suffix around the
    rest, append '_' and the index padded with zeros to four digits when
    numbering is on, append the final extension. *)

Module FilenameSpec.

(** Position of the last [c] in [s], scanning from the left. *)
Fixpoint last_index (c : ascii) (s : string) (i : nat) (found : option nat)
    : option nat :=
  match s with
  | EmptyString => found
  | String a r => last_index c r (S i) (if Ascii.eqb a c then Some i else found)
  end.

Definition strip_extension (original_name : string) : string :=
  match last_index "." original_name 0 None with
  | Some i => String.substring 0 i original_name
  | None => original_name
  end.

(** The extension the original name carries, with its dot. *)
Definition original_extension (original_name : string) : string :=
  match last_index "." original_name 0 None with
  | Some i =>
      String.substring i (String.length original_name - i)%nat original_name
  | None => ""
  end.

Definition zero_pad4 (index : Z) : string :=
  let d := PyStr.digits (Z.to_N index) in
  PyStr.repeat_char "0" (4 - String.length d)%nat ++ d.

Definition filename (original_name : string) (index : Z)
    (prefix suffix : string) (numbered : bool) (final_extension : string)
    : string :=
  let base := prefix ++ strip_extension original_name ++ suffix in
  let base := if numbered then base ++ "_" ++ zero_pad4 index else base in
  base ++ final_extension.

End FilenameSpec.

(** The extension [generate_filename] ends the name with: the one passed
    when there is one, the original name's otherwise. *)
Definition final_extension (original_name : string) (extension : option string)
    : string :=
  match requested extension with
  | Some e => e
  | None => FilenameSpec.original_extension original_name
  end.

(** ** A small PIL to run the model on

    A decoder that reads any non-empty byte string as a white RGB row of as
    many pixels, an encoder that writes one byte per band, and
    nearest-neighbour sampling in place of the Lanczos filter. *)

Module Sample.

Definition open_row (b : bytes) : result Image :=
  match b with
  | [] => Raise (UnidentifiedImageError "cannot identify image file")
  | _ => Ok (mkImage M_RGB (N.of_nat (List.length b)) 1 (fun _ _ => white))
  end.

Definition save_bands (im : Image) (args : SaveArgs) : result bytes :=
  Ok (List.repeat Byte.x2a (bands (mode im))).

Definition nearest (im : Image) (w h : Z) : Z -> Z -> Color :=
  fun x y => px im (x * Z.of_N (width im) / w) (y * Z.of_N (height im) / h).

Definition pil : PIL := mkPIL open_row save_bands nearest.

(** The same with a decoder that reads every byte string as [im]. *)
Definition showing (im : Image) : PIL :=
  mkPIL (fun _ => Ok im) save_bands nearest.

Definition solid (m : Mode) (w h : N) (c : Color) : Image :=
  mkImage m w h (fun _ _ => c).

End Sample.


(** ** Vocabulary of the statements *)

(** The formats [convert_format] knows. *)
Definition supported_formats : list string := ["JPEG"; "JPG"; "PNG"; "WEBP"].

Definition unsupported (target_format : string) : exn :=
  ValueError ("Unsupported format: " ++ target_format).

Definition missing_custom_size : exn :=
  ValueError "Custom size must be provided for CUSTOM preset".





(** The mode conversion of [convert_format] as a function of the mode the
    format asks for. *)
Definition converted_for (m : Mode) (image : Image) : Image :=
  match m, mode image with
  | M_RGB, (M_RGBA | M_LA) =>
      PILImage.paste_mask
        (mkImage M_RGB (width image) (height image) (fun _ _ => white))
        image (PILImage.last_band image)
  | M_RGB, M_P =>
      PILImage.paste_mask
        (mkImage M_RGB (width image) (height image) (fun _ _ => white))
        (PILImage.convert image M_RGBA)
        (PILImage.last_band (PILImage.convert image M_RGBA))
  | M_RGBA, (M_P | M_RGB) => PILImage.convert image M_RGBA
  | _, _ => image
  end.

(** What a batch without failures returns and does, item by item. *)
Definition expected_results (prefix suffix : string) (use_numbering : bool)
    (images : list ImageItem) (outs : list (bytes * string))
    : list (bytes * string) :=
  map (fun '(idx, (img_dict, (processed_data, extension))) =>
         (processed_data,
          generate_filename (name img_dict) (idx + 1) prefix suffix
            use_numbering (Some extension)))
      (enumerate 0 (combine images outs)).

Definition expected_trace (progress_callback : bool) (total : Z)
    (items : list (Z * ImageItem)) : list event :=
  flat_map (fun '(idx, img_dict) =>
              EvProcess idx (name img_dict)
              :: (if progress_callback then [EvProgress (idx + 1) total] else []))
           items.

(** The reading of "the error carries the offending item's index and
    original filename": both can be read off the exception a failing batch
    raises. *)
Definition error_names_item (item_of : exn -> Z * string) : Prop :=
  forall (pil : PIL) (preset : ResizePreset) (custom_size : option (Z * Z))
         (target_format : option string) (maintain_aspect crop_to_fit : bool)
         (quality : Z) (prefix suffix : string)
         (use_numbering progress_callback : bool)
         (pre : list ImageItem) (bad : ImageItem) (post : list ImageItem)
         (e : exn),
    Forall (fun img_dict =>
              is_ok (process_image pil (data img_dict) (name img_dict) preset
                       custom_size target_format maintain_aspect crop_to_fit
                       quality) = true) pre ->
    process_image pil (data bad) (name bad) preset custom_size target_format
      maintain_aspect crop_to_fit quality = Raise e ->
    forall e',
      snd (batch_process pil preset custom_size target_format maintain_aspect
             crop_to_fit quality prefix suffix use_numbering progress_callback
             (pre ++ bad :: post)) = Raise e' ->
      item_of e' = (Z.of_nat (List.length pre), name bad).

(** ** Vocabulary of the further properties *)

(** The extension [process_image] reads off the original name when no
    format is requested: the text after the last '.', lower-cased, "png"
    for a name without a dot. *)
Definition source_extension (filename : string) : string :=
  if PyStr.contains "." filename then
    PyStr.lower (PyStr.last_item (PyStr.rsplit1 "." filename))
  else "png".

(** The box a fitted picture of [new_w] x [new_h] pixels takes on a canvas
    of [target_width] x [target_height]. *)
Definition in_centre_box (target_width target_height new_w new_h x y : Z) : Prop :=
  (target_width - new_w) / 2 <= x < (target_width - new_w) / 2 + new_w
  /\ (target_height - new_h) / 2 <= y < (target_height - new_h) / 2 + new_h.


Fixpoint progress_reports (trace : list event) : list (Z * Z) :=
  match trace with
  | [] => []
  | EvProgress current total :: rest => (current, total) :: progress_reports rest
  | EvProcess _ _ :: rest => progress_reports rest
  end.

(** Reading a string of decimal digits back: its value and ten to the
    power of its length. *)
Module Decimal.





End Decimal.


(** An int in an f-string: [f"{n}"]. *)
Definition format_int (n : Z) : string :=
  (if n <? 0 then "-" else "") ++ PyStr.digits (Z.abs_N n).

(** ** The page of [app.py]

    The sidebar of [main] as a function of the values its widgets return,
    and the processing it starts on the uploaded files. *)

Module App.

Definition preset_options : list string :=
  ["1:1 Square"; "1080p Full HD"; "Passport Size"; "Custom Dimensions"].

(** The dict [preset_map]. *)
Definition preset_map : list (string * ResizePreset) :=
  [ ("1:1 Square", SQUARE_1080);
    ("1080p Full HD", HD_1080P);
    ("Passport Size", PASSPORT);
    ("Custom Dimensions", CUSTOM) ].

Definition resize_modes : list string :=
  ["Fit (Contain)"; "Fill (Cover)"; "Stretch"].

Definition format_options : list string :=
  ["Original Format"; "JPEG"; "PNG"; "WEBP"].

(** What the widgets return: the two select boxes and the radio one of
    their options, the number inputs and the slider a number. The number
    inputs are read only for the Custom preset, the slider only when it is
    shown. *)
Record Widgets : Type := mkWidgets {
  preset_option : string;
  custom_width : Z;
  custom_height : Z;
  resize_mode : string;
  target_format_opt : string;
  quality_slider : Z;
  prefix_input : string;
  suffix_input : string;
  numbering_toggle : bool
}.

(** The arguments [main] passes to [batch_process]. *)
Record Settings : Type := mkSettings {
  selected_preset : ResizePreset;
  custom_size : option (Z * Z);
  maintain_aspect : bool;
  crop_to_fit : bool;
  target_format : option string;
  quality : Z;
  prefix : string;
  suffix : string;
  use_numbering : bool
}.

Definition sidebar (ui : Widgets) : result Settings :=
  match dict_get preset_map (preset_option ui) with
  | None => Raise (KeyError (preset_option ui))
  | Some selected_preset =>
      let custom_size :=
        match selected_preset with
        | CUSTOM => Some (custom_width ui, custom_height ui)
        | _ => None
        end in
      let maintain_aspect := String.eqb (resize_mode ui) "Fit (Contain)" in
      let crop_to_fit := String.eqb (resize_mode ui) "Fill (Cover)" in
      let target_format :=
        if String.eqb (target_format_opt ui) "Original Format" then None
        else Some (target_format_opt ui) in
      let quality :=
        if match target_format with
           | Some f => existsb (String.eqb f) ["JPEG"; "WEBP"]
           | None => true
           end
        then quality_slider ui
        else 95 in
      Ok (mkSettings selected_preset custom_size maintain_aspect crop_to_fit
            target_format quality (prefix_input ui) (suffix_input ui)
            (numbering_toggle ui))
  end.

(** What the widgets guarantee: an option of the list, numbers within the
    bounds the widget was given. *)
Definition widgets_valid (ui : Widgets) : Prop :=
  In (preset_option ui) preset_options
  /\ 1 <= custom_width ui /\ 1 <= custom_height ui
  /\ In (resize_mode ui) resize_modes
  /\ In (target_format_opt ui) format_options
  /\ 1 <= quality_slider ui <= 100.

(** What the page shows after the button: the download of the archive with
    a preview of the first four results, or the error. *)
Inductive Page : Type :=
| Download (zip_bytes : ZipFile) (preview : list (bytes * string))
| Failed (e : exn).

Definition process (pil : PIL) (cfg : Settings)
    (uploaded_files : list ImageItem) : list event * Page :=
  let raw_images := map (fun f => mkItem (data f) (name f)) uploaded_files in
  match batch_process pil (selected_preset cfg) (custom_size cfg)
          (target_format cfg) (maintain_aspect cfg) (crop_to_fit cfg)
          (quality cfg) (prefix cfg) (suffix cfg) (use_numbering cfg) true
          raw_images with
  | (trace, Ok processed) =>
      (trace, Download (create_zip processed) (firstn 4 processed))
  | (trace, Raise e) => (trace, Failed e)
  end.

(** The callback [update_bar] of [main]: the value it sets the progress
    bar to and the status text it shows. *)
Definition update_bar (curr total : Z) : result (spec_float * string) :=
  value <- PyFloat.int_truediv curr total ;;
  Ok (value,
      "Processing image " ++ format_int curr ++ "/" ++ format_int total
        ++ "...").

End App.


(** Sizes the float arithmetic of the resize code is exact enough for:
    positive and below 2^53. *)
Definition float_sized (n : Z) : Prop := 0 < n < 2 ^ 53.

(** The float 1.0. *)
Definition float_one : spec_float := S754_finite false 4503599627370496 (-52).

(** [x] is the real number [n] / 1024, without rounding error: its value
    m * 2^e equals n * 2^-10 (both sides are multiplied by 2^62 to stay in
    the integers). *)
Definition kilobytes_exact (x : spec_float) (n : Z) : Prop :=
  match x with
  | S754_zero _ => n = 0
  | S754_finite false m e => -62 <= e /\ Zpos m * 2 ^ (e + 62) = n * 2 ^ 52
  | _ => False
  end.

(** ** Image information *)

(** The dict [get_image_info] returns. *)
Record ImageInfo : Type := mkImageInfo {
  info_width : Z;
  info_height : Z;
  info_format : option string;
  info_mode : string;
  info_size_kb : spec_float
}.

(** [identified] is the [format] attribute of the image [Image.open]
    returns: the name of the file format it identified. *)
Definition get_image_info (pil : PIL) (identified : bytes -> option string)
    (image_data : bytes) : result ImageInfo :=
  image <- image_open pil image_data ;;
  size_kb <- PyFloat.int_truediv (Z.of_nat (List.length image_data)) 1024 ;;
  Ok (mkImageInfo (Z.of_N (width image)) (Z.of_N (height image))
        (identified image_data) (mode_name (mode image)) size_kb).

(** * Properties *)

(** ** Strings *)

Section StringFacts.

Local Open Scope nat_scope.

Lemma append_empty_r (s : string) : s ++ "" = s.
Proof. induction s; simpl; congruence. Qed.

Lemma append_assoc (a b c : string) : (a ++ b) ++ c = a ++ b ++ c.
Proof. induction a; simpl; congruence. Qed.

Lemma length_append (a b : string) :
  String.length (a ++ b) = String.length a + String.length b.
Proof. induction a; simpl; congruence. Qed.

Lemma substring_whole (s : string) : substring 0 (String.length s) s = s.
Proof. induction s; simpl; congruence. Qed.

Lemma substring_head (h r : string) :
  substring 0 (String.length h) (h ++ r) = h.
Proof.
  induction h as [|a h IH]; simpl.
  - destruct r; reflexivity.
  - now rewrite IH.
Qed.

Lemma substring_tail (h r : string) :
  substring (String.length h) (String.length (h ++ r) - String.length h) (h ++ r) = r.
Proof.
  induction h as [|a h IH]; simpl.
  - rewrite Nat.sub_0_r. apply substring_whole.
  - exact IH.
Qed.

Lemma rsplit_once_none (c : ascii) (s : string) :
  PyStr.contains c s = false <-> PyStr.rsplit_once c s = None.
Proof.
  induction s as [|a s IH]; simpl.
  - tauto.
  - destruct (Ascii.eqb a c).
    + split; [discriminate|]. destruct (PyStr.rsplit_once c s) as [[h t]|]; discriminate.
    + rewrite IH. destruct (PyStr.rsplit_once c s) as [[h t]|]; split; congruence.
Qed.

Lemma rsplit_once_some (c : ascii) (s h t : string) :
  PyStr.rsplit_once c s = Some (h, t) ->
  s = h ++ String c t /\ PyStr.contains c t = false.
Proof.
  revert h t. induction s as [|a s IH]; simpl; intros h t H.
  - discriminate.
  - destruct (PyStr.rsplit_once c s) as [[h' t']|] eqn:E.
    + inversion H; subst. destruct (IH _ _ eq_refl) as [-> Ht].
      split; [reflexivity|assumption].
    + destruct (Ascii.eqb a c) eqn:Eac; [|discriminate].
      inversion H; subst. apply Ascii.eqb_eq in Eac. subst a.
      split; [reflexivity|]. now apply rsplit_once_none.
Qed.

Lemma last_index_rsplit (c : ascii) (s : string) (i : nat) (found : option nat) :
  FilenameSpec.last_index c s i found =
  match PyStr.rsplit_once c s with
  | Some (h, _) => Some (i + String.length h)
  | None => found
  end.
Proof.
  revert i found. induction s as [|a s IH]; simpl; intros i found.
  - reflexivity.
  - rewrite IH. destruct (PyStr.rsplit_once c s) as [[h t]|]; simpl.
    + f_equal. lia.
    + destruct (Ascii.eqb a c); simpl; [f_equal; lia | reflexivity].
Qed.

(** The base name and the extension [generate_filename] splits off are
    the ones the specification's rule names. *)
Lemma split_name_spec (original_name : string) :
  (if PyStr.contains "." original_name then
     (PyStr.item (PyStr.rsplit1 "." original_name) 0,
      "." ++ PyStr.item (PyStr.rsplit1 "." original_name) 1)
   else (original_name, ""))%string
  = (FilenameSpec.strip_extension original_name,
     FilenameSpec.original_extension original_name).
Proof.
  unfold FilenameSpec.strip_extension, FilenameSpec.original_extension,
    PyStr.rsplit1, PyStr.item.
  rewrite last_index_rsplit.
  destruct (PyStr.rsplit_once "." original_name) as [[h t]|] eqn:E.
  - destruct (PyStr.contains "." original_name) eqn:C.
    + apply rsplit_once_some in E. destruct E as [-> _]. simpl.
      rewrite substring_head, substring_tail. reflexivity.
    + apply rsplit_once_none in C. congruence.
  - apply rsplit_once_none in E. now rewrite E.
Qed.

End StringFacts.

(** ** Filenames *)

Lemma generate_filename_unfold (original_name : string) (index : Z)
    (prefix suffix : string) (use_numbering : bool) (extension : option string) :
  generate_filename original_name index prefix suffix use_numbering extension
  = (let new_name := prefix ++ FilenameSpec.strip_extension original_name ++ suffix in
     let new_name :=
       if use_numbering then new_name ++ "_" ++ PyStr.format_04d index
       else new_name in
     new_name ++ final_extension original_name extension).
Proof.
  unfold generate_filename, final_extension, requested.
  rewrite split_name_spec.
  destruct extension as [e|]; [destruct (PyStr.truthy e)|]; reflexivity.
Qed.

Lemma format_04d_nonneg (index : Z) :
  0 <= index -> PyStr.format_04d index = FilenameSpec.zero_pad4 index.
Proof.
  intros H. unfold PyStr.format_04d, FilenameSpec.zero_pad4.
  replace (index <? 0) with false by (symmetry; apply Z.ltb_ge; exact H).
  replace (Z.abs_N index) with (Z.to_N index) by (destruct index; try reflexivity; lia).
  reflexivity.
Qed.

(** C5. [generate_filename] is the specification's rule: strip the text
    after the last '.', put prefix and suffix around the rest, append '_'
    and the index zero-padded to four digits when numbering is on, append
    the final extension (the extension passed, when one is); and the rule
    names "out_img_0003.png" for "img.bmp" at index 3 with prefix "out_"
    and extension ".png". *)
Theorem generate_filename_refines_spec :
  forall (original_name : string) (index : Z) (prefix suffix : string)
         (use_numbering : bool) (extension : option string),
    0 <= index ->
    generate_filename original_name index prefix suffix use_numbering extension
    = FilenameSpec.filename original_name index prefix suffix use_numbering
        (final_extension original_name extension)
    /\ (forall e, extension = Some e -> e <> "" ->
        final_extension original_name extension = e)
    /\ generate_filename "img.bmp" 3 "out_" "" true (Some ".png")
       = "out_img_0003.png".
Proof.
  intros original_name index prefix suffix use_numbering extension Hidx.
  split; [|split].
  - rewrite generate_filename_unfold. unfold FilenameSpec.filename.
    now rewrite format_04d_nonneg.
  - intros e -> He. unfold final_extension, requested.
    destruct e; [congruence | reflexivity].
  - reflexivity.
Qed.

Lemma generate_filename_refines_spec_witness :
  generate_filename "photo.final.JPG" 12 "web_" "_v2" true (Some ".webp")
  = FilenameSpec.filename "photo.final.JPG" 12 "web_" "_v2" true ".webp"
  /\ generate_filename "photo.final.JPG" 12 "web_" "_v2" true (Some ".webp")
     = "web_photo.final_v2_0012.webp".
Proof.
  split.
  - exact (proj1 (generate_filename_refines_spec "photo.final.JPG" 12 "web_"
                    "_v2" true (Some ".webp") ltac:(lia))).
  - reflexivity.
Defined.

(** C10. Without numbering the generated filename does not depend on the
    index. *)
Theorem generate_filename_index_irrelevant :
  forall (original_name : string) (i j : Z) (prefix suffix : string)
         (extension : option string),
    generate_filename original_name i prefix suffix false extension
    = generate_filename original_name j prefix suffix false extension.
Proof.
  intros. rewrite !generate_filename_unfold. reflexivity.
Qed.

(** ** Resolving the dimensions *)

Lemma get_preset_dimensions_fixed (preset : ResizePreset) (custom_size : option (Z * Z)) :
  preset <> CUSTOM ->
  exists w h, get_preset_dimensions preset custom_size = Ok (w, h) /\ 0 < w /\ 0 < h.
Proof.
  destruct preset; intros H; try congruence; simpl;
    eexists; eexists; (split; [reflexivity | lia]).
Qed.

Lemma get_preset_dimensions_raises (preset : ResizePreset)
    (custom_size : option (Z * Z)) (e : exn) :
  get_preset_dimensions preset custom_size = Raise e <->
  preset = CUSTOM /\ custom_size = None /\ e = missing_custom_size.
Proof.
  unfold missing_custom_size.
  destruct preset, custom_size as [[w h]|]; simpl; split;
    try discriminate; try (intros (H1 & H2 & H3); congruence).
  intros H. inversion H. auto.
Qed.

(** ** The archive *)



(** ** The batch loop *)

Lemma length_enumerate {A : Type} (l : list A) (start : Z) :
  List.length (enumerate start l) = List.length l.
Proof. revert start. induction l; intros; simpl; auto. Qed.

Lemma nth_error_enumerate {A : Type} (l : list A) (start : Z) (i : nat) :
  nth_error (enumerate start l) i
  = option_map (fun a => (start + Z.of_nat i, a)) (nth_error l i).
Proof.
  revert start i. induction l as [|a l IH]; intros start [|i]; simpl;
    try reflexivity.
  - now rewrite Z.add_0_r.
  - rewrite IH. destruct (nth_error l i); simpl; [|reflexivity].
    do 2 f_equal. lia.
Qed.

Lemma nth_error_combine_some {A B : Type} (la : list A) (lb : list B)
    (i : nat) (a : A) (b : B) :
  nth_error la i = Some a -> nth_error lb i = Some b ->
  nth_error (combine la lb) i = Some (a, b).
Proof.
  revert lb i. induction la as [|x la IH]; intros [|y lb] [|i]; simpl;
    try discriminate.
  - congruence.
  - apply IH.
Qed.

Section BatchFacts.

Variable pil : PIL.
Variable preset : ResizePreset.
Variable custom_size : option (Z * Z).
Variable target_format : option string.
Variable maintain_aspect crop_to_fit : bool.
Variable quality : Z.
Variable prefix suffix : string.
Variable use_numbering : bool.
Variable progress_callback : bool.

Let run_one (img_dict : ImageItem) : result (bytes * string) :=
  process_image pil (data img_dict) (name img_dict) preset custom_size
    target_format maintain_aspect crop_to_fit quality.

Let loop := batch_loop pil preset custom_size target_format maintain_aspect
              crop_to_fit quality prefix suffix use_numbering progress_callback.

Let named (entry : Z * (ImageItem * (bytes * string))) : bytes * string :=
  let '(idx, (img_dict, (processed_data, extension))) := entry in
  (processed_data,
   generate_filename (name img_dict) (idx + 1) prefix suffix use_numbering
     (Some extension)).

Lemma batch_loop_all_ok (images : list ImageItem) :
  forall (outs : list (bytes * string)) (start total : Z)
         (results : list (bytes * string)) (trace : list event),
    Forall2 (fun img_dict out => run_one img_dict = Ok out) images outs ->
    loop total (enumerate start images) results trace
    = ((trace ++ expected_trace progress_callback total (enumerate start images))%list,
       Ok (results ++ map named (enumerate start (combine images outs)))%list).
Proof.
  induction images as [|it images IH]; intros outs start total results trace H.
  - inversion H; subst. simpl. now rewrite !app_nil_r.
  - inversion H as [|? [d ext] ? outs' Hit Hrest]; subst.
    unfold loop in *. simpl. unfold run_one in Hit. rewrite Hit.
    rewrite (IH outs' (start + 1) total _ _ Hrest).
    f_equal.
    + destruct progress_callback; simpl; rewrite <- !app_assoc; reflexivity.
    + rewrite <- app_assoc. reflexivity.
Qed.

Lemma batch_loop_first_failure (pre : list ImageItem) :
  forall (outs : list (bytes * string)) (bad : ImageItem) (post : list ImageItem)
         (e : exn) (start total : Z)
         (results : list (bytes * string)) (trace : list event),
    Forall2 (fun img_dict out => run_one img_dict = Ok out) pre outs ->
    run_one bad = Raise e ->
    loop total (enumerate start (pre ++ bad :: post)) results trace
    = ((trace ++ expected_trace progress_callback total (enumerate start pre)
              ++ [EvProcess (start + Z.of_nat (List.length pre)) (name bad)])%list,
       Raise e).
Proof.
  induction pre as [|it pre IH];
    intros outs bad post e start total results trace H Hbad.
  - unfold loop. simpl. unfold run_one in Hbad. rewrite Hbad.
    now rewrite Z.add_0_r.
  - inversion H as [|? [d ext] ? outs' Hit Hrest]; subst.
    unfold loop in *. simpl app. cbn [enumerate batch_loop].
    unfold run_one in Hit. rewrite Hit.
    rewrite (IH outs' bad post e (start + 1) total _ _ Hrest Hbad).
    f_equal. cbn [expected_trace flat_map]. fold (expected_trace progress_callback total).
    replace (start + 1 + Z.of_nat (List.length pre))
      with (start + Z.of_nat (List.length (it :: pre)))
      by (cbn [List.length]; lia).
    destruct progress_callback; simpl; rewrite <- !app_assoc; reflexivity.
Qed.

(** C8. When no item fails, [batch_process] calls [process_image] on the
    items in input order, calls the progress callback (when one is passed)
    once after each item with the 1-based number of the item and the
    number of items, and returns one (bytes, filename) pair per item in
    input order, the i-th made of the i-th item's processed bytes and the
    filename generated for it with sequence number i. *)
Theorem batch_process_in_order :
  forall (images : list ImageItem) (outs : list (bytes * string)),
    Forall2 (fun img_dict out =>
               process_image pil (data img_dict) (name img_dict) preset
                 custom_size target_format maintain_aspect crop_to_fit quality
               = Ok out) images outs ->
    batch_process pil preset custom_size target_format maintain_aspect
      crop_to_fit quality prefix suffix use_numbering progress_callback images
    = (expected_trace progress_callback (Z.of_nat (List.length images))
         (enumerate 0 images),
       Ok (expected_results prefix suffix use_numbering images outs))
    /\ List.length (expected_results prefix suffix use_numbering images outs)
       = List.length images
    /\ (forall (i : nat) (img_dict : ImageItem) (processed_data : bytes)
               (extension : string),
          nth_error images i = Some img_dict ->
          nth_error outs i = Some (processed_data, extension) ->
          nth_error (expected_results prefix suffix use_numbering images outs) i
          = Some (processed_data,
                  generate_filename (name img_dict) (Z.of_nat i + 1) prefix
                    suffix use_numbering (Some extension))).
Proof.
  intros images outs H. split; [|split].
  - unfold batch_process. fold loop.
    rewrite (batch_loop_all_ok images outs 0 _ [] [] H). reflexivity.
  - unfold expected_results.
    rewrite length_map, length_enumerate, length_combine.
    apply Forall2_length in H. lia.
  - intros i img_dict processed_data extension Hi Ho.
    unfold expected_results.
    rewrite nth_error_map, nth_error_enumerate.
    rewrite (nth_error_combine_some _ _ _ _ _ Hi Ho). reflexivity.
Qed.

(** C6 (amended). When an item fails, [batch_process] stops at it: the items
    before it were processed in order, the failing item was tried once,
    nothing after it runs, no result is returned, and the exception raised
    is the one [process_image] raised for that item, unchanged. *)
Theorem batch_process_first_failure :
  forall (pre : list ImageItem) (outs : list (bytes * string))
         (bad : ImageItem) (post : list ImageItem) (e : exn),
    Forall2 (fun img_dict out =>
               process_image pil (data img_dict) (name img_dict) preset
                 custom_size target_format maintain_aspect crop_to_fit quality
               = Ok out) pre outs ->
    process_image pil (data bad) (name bad) preset custom_size target_format
      maintain_aspect crop_to_fit quality = Raise e ->
    batch_process pil preset custom_size target_format maintain_aspect
      crop_to_fit quality prefix suffix use_numbering progress_callback
      (pre ++ bad :: post)
    = ((expected_trace progress_callback
          (Z.of_nat (List.length (pre ++ bad :: post))) (enumerate 0 pre)
        ++ [EvProcess (Z.of_nat (List.length pre)) (name bad)])%list,
       Raise e).
Proof.
  intros pre outs bad post e H Hbad.
  unfold batch_process. fold loop.
  rewrite (batch_loop_first_failure pre outs bad post e 0 _ [] [] H Hbad).
  reflexivity.
Qed.

End BatchFacts.

Lemma batch_process_in_order_witness :
  batch_process Sample.pil SQUARE_1080 None (Some "png") true false 95
    "out_" "" true true
    [mkItem [Byte.x01] "a.bmp"; mkItem [Byte.x01; Byte.x02] "b.c.gif"]
  = ([EvProcess 0 "a.bmp"; EvProgress 1 2; EvProcess 1 "b.c.gif"; EvProgress 2 2],
     Ok [([Byte.x2a; Byte.x2a; Byte.x2a; Byte.x2a], "out_a_0001.png");
         ([Byte.x2a; Byte.x2a; Byte.x2a; Byte.x2a], "out_b.c_0002.png")]).
Proof.
  refine (proj1 (batch_process_in_order Sample.pil SQUARE_1080 None (Some "png")
                   true false 95 "out_" "" true true
                   [mkItem [Byte.x01] "a.bmp"; mkItem [Byte.x01; Byte.x02] "b.c.gif"]
                   [([Byte.x2a; Byte.x2a; Byte.x2a; Byte.x2a], ".png");
                    ([Byte.x2a; Byte.x2a; Byte.x2a; Byte.x2a], ".png")] _)).
  constructor; [vm_compute; reflexivity|].
  constructor; [vm_compute; reflexivity|].
  constructor.
Defined.

Lemma batch_process_first_failure_witness :
  batch_process Sample.pil CUSTOM (Some (1, 5)) None true false 95
    "" "" false true
    [mkItem [Byte.x01] "x.png"; mkItem [Byte.x01; Byte.x02] "b.png";
     mkItem [Byte.x01] "y.png"]
  = ([EvProcess 0 "x.png"; EvProgress 1 3; EvProcess 1 "b.png"],
     Raise (ValueError "height and width must be > 0")).
Proof.
  refine (batch_process_first_failure Sample.pil CUSTOM (Some (1, 5)) None
            true false 95 "" "" false true
            [mkItem [Byte.x01] "x.png"]
            [([Byte.x2a; Byte.x2a; Byte.x2a], ".png")]
            (mkItem [Byte.x01; Byte.x02] "b.png")
            [mkItem [Byte.x01] "y.png"]
            (ValueError "height and width must be > 0") _ _).
  - constructor; [vm_compute; reflexivity | constructor].
  - vm_compute; reflexivity.
Defined.

(** C6, as stated, fails: a failure of the first item, "a.png", and a
    failure of the second item, "b.png", raise the same exception, so
    neither the index nor the filename can be read off it. *)
Lemma batch_error_lacks_item_context :
  ~ exists item_of : exn -> Z * string, error_names_item item_of.
Proof.
  intros [item_of H].
  pose (bad1 := mkItem [Byte.x01; Byte.x02] "a.png").
  pose (bad2 := mkItem [Byte.x01; Byte.x02] "b.png").
  pose (good := mkItem [Byte.x01] "x.png").
  pose (e := ValueError "height and width must be > 0").
  assert (H1 : item_of e = (0, "a.png")).
  { apply (H Sample.pil CUSTOM (Some (1, 5)) None true false 95 "" "" false
             true [] bad1 [] e).
    - constructor.
    - vm_compute; reflexivity.
    - vm_compute; reflexivity. }
  assert (H2 : item_of e = (1, "b.png")).
  { apply (H Sample.pil CUSTOM (Some (1, 5)) None true false 95 "" "" false
             true [good] bad2 [] e).
    - constructor; [vm_compute; reflexivity | constructor].
    - vm_compute; reflexivity.
    - vm_compute; reflexivity. }
  rewrite H1 in H2. discriminate H2.
Qed.

(** ** Configuration errors *)

Lemma process_image_missing_custom_size (pil : PIL) (image_data : bytes)
    (filename : string) (target_format : option string)
    (maintain_aspect crop_to_fit : bool) (quality : Z) :
  process_image pil image_data filename CUSTOM None target_format
    maintain_aspect crop_to_fit quality
  = match image_open pil image_data with
    | Ok _ => Raise missing_custom_size
    | Raise e => Raise e
    end.
Proof.
  unfold process_image, process_image_prepare.
  destruct (image_open pil image_data); reflexivity.
Qed.

(** C1, as stated, fails: a custom pair with a width of 0 and a negative
    height is resolved, not refused; a batch of no items returns normally
    with the custom pair missing and with a quality of 0; and with the
    custom pair missing, an item that cannot be decoded is reported by the
    decoder's error, the item having been opened first. *)
Lemma configuration_not_validated_eagerly :
  get_preset_dimensions CUSTOM (Some (0, -5)) = Ok (0, -5)
  /\ batch_process Sample.pil CUSTOM None None true false 0 "" "" false true []
     = ([], Ok [])
  /\ batch_process Sample.pil CUSTOM None None true false 95 "" "" false true
       [mkItem [] "x.png"]
     = ([EvProcess 0 "x.png"],
        Raise (UnidentifiedImageError "cannot identify image file")).
Proof. repeat split. Qed.

(** C1 (amended). Resolving the dimensions fails exactly when the preset
    is Custom and no custom pair is passed; a custom pair that is passed is
    returned as it is. [process_image] resolves the dimensions after
    opening the image, so with the custom pair missing it raises the
    decoder's error when the bytes do not open and the missing-size error
    otherwise; a batch of at least one item stops at its first item with
    that exception, before any result or progress report, and a batch of
    no items returns the empty list. *)
Theorem configuration_errors :
  forall (pil : PIL) (target_format : option string)
         (maintain_aspect crop_to_fit : bool) (quality : Z)
         (prefix suffix : string) (use_numbering progress_callback : bool),
    (forall preset custom_size e,
        get_preset_dimensions preset custom_size = Raise e <->
        preset = CUSTOM /\ custom_size = None /\ e = missing_custom_size)
    /\ (forall w h, get_preset_dimensions CUSTOM (Some (w, h)) = Ok (w, h))
    /\ (forall image_data filename,
          process_image pil image_data filename CUSTOM None target_format
            maintain_aspect crop_to_fit quality
          = match image_open pil image_data with
            | Ok _ => Raise missing_custom_size
            | Raise e => Raise e
            end)
    /\ (forall first rest,
          batch_process pil CUSTOM None target_format maintain_aspect
            crop_to_fit quality prefix suffix use_numbering progress_callback
            (first :: rest)
          = ([EvProcess 0 (name first)],
             match image_open pil (data first) with
             | Ok _ => Raise missing_custom_size
             | Raise e => Raise e
             end))
    /\ (forall preset custom_size,
          batch_process pil preset custom_size target_format maintain_aspect
            crop_to_fit quality prefix suffix use_numbering progress_callback []
          = ([], Ok [])).
Proof.
  intros. split; [|split; [|split; [|split]]].
  - intros. apply get_preset_dimensions_raises.
  - reflexivity.
  - intros. apply process_image_missing_custom_size.
  - intros. unfold batch_process. cbn [enumerate batch_loop app].
    rewrite process_image_missing_custom_size.
    destruct (image_open pil (data first)); reflexivity.
  - reflexivity.
Qed.

(** ** Format conversion *)

Lemma new_on_size (m : Mode) (im : Image) (c : Color) :
  PILImage.new m (size im) c
  = Ok (mkImage m (width im) (height im) (fun _ _ => c)).
Proof.
  unfold PILImage.new, size.
  replace ((Z.of_N (width im) <? 0) || (Z.of_N (height im) <? 0)) with false.
  - now rewrite !N2Z.id.
  - symmetry. apply orb_false_iff. split; apply Z.ltb_ge; lia.
Qed.

Lemma format_map_lookup (k : string) :
  match dict_get format_map k with
  | Some _ => In k supported_formats
  | None => ~ In k supported_formats
  end.
Proof.
  unfold format_map, supported_formats, dict_get.
  destruct (String.eqb_spec k "JPEG"); [simpl; auto|].
  destruct (String.eqb_spec k "JPG"); [simpl; auto|].
  destruct (String.eqb_spec k "PNG"); [simpl; auto|].
  destruct (String.eqb_spec k "WEBP"); [simpl; auto|].
  simpl. intuition congruence.
Qed.

Lemma convert_format_supported (image : Image) (target_format : string) :
  In (PyStr.upper target_format) supported_formats ->
  exists out extension, convert_format image target_format = Ok (out, extension).
Proof.
  intros Hin. unfold convert_format.
  pose proof (format_map_lookup (PyStr.upper target_format)) as Hl.
  destruct (dict_get format_map (PyStr.upper target_format)) as [[ext m]|];
    [|contradiction].
  rewrite new_on_size. cbn [bind].
  repeat match goal with
         | |- context [if ?b then _ else _] => destruct b; cbn [bind]
         end; eauto.
Qed.

Lemma convert_format_fails_iff (image : Image) (target_format : string) :
  (exists e, convert_format image target_format = Raise e)
  <-> ~ In (PyStr.upper target_format) supported_formats.
Proof.
  split.
  - intros [e He] Hin.
    destruct (convert_format_supported image target_format Hin) as (o & x & Hok).
    congruence.
  - intros Hn. unfold convert_format.
    pose proof (format_map_lookup (PyStr.upper target_format)) as Hl.
    destruct (dict_get format_map (PyStr.upper target_format)) as [[ext m]|];
      [contradiction | eexists; reflexivity].
Qed.

(** C9. [convert_format] raises its unsupported-format error exactly when
    the requested format, upper-cased, is none of JPEG, JPG, PNG and WEBP,
    and returns normally otherwise, so that two spellings of a format that
    differ in case only are refused or accepted together; "TIFF" is
    refused. *)
Theorem convert_format_unsupported_iff :
  forall (image : Image) (target_format : string),
    (convert_format image target_format = Raise (unsupported target_format)
     <-> ~ In (PyStr.upper target_format) supported_formats)
    /\ ((exists e, convert_format image target_format = Raise e)
        <-> ~ In (PyStr.upper target_format) supported_formats)
    /\ (forall other,
          PyStr.upper other = PyStr.upper target_format ->
          ((exists e, convert_format image other = Raise e)
           <-> (exists e, convert_format image target_format = Raise e)))
    /\ convert_format image "TIFF" = Raise (unsupported "TIFF").
Proof.
  intros image target_format.
  assert (Hno : ~ In (PyStr.upper target_format) supported_formats ->
                convert_format image target_format = Raise (unsupported target_format)).
  { intros Hn. unfold convert_format.
    pose proof (format_map_lookup (PyStr.upper target_format)) as Hl.
    destruct (dict_get format_map (PyStr.upper target_format)) as [[ext m]|];
      [contradiction | reflexivity]. }
  assert (Hyes : forall e, convert_format image target_format = Raise e ->
                 ~ In (PyStr.upper target_format) supported_formats).
  { intros e He Hin.
    destruct (convert_format_supported image target_format Hin) as (o & x & Hok).
    congruence. }
  split; [|split; [|split]].
  - split; [apply Hyes | apply Hno].
  - split.
    + intros [e He]. exact (Hyes e He).
    + intros Hn. eexists. exact (Hno Hn).
  - intros other Hsame. rewrite !convert_format_fails_iff, Hsame. tauto.
  - reflexivity.
Qed.

(** ** Resizing *)

Lemma resize_image_to_rgb_cases (image : Image) :
  resize_image_to_rgb image
  = Ok (match mode image with
        | M_RGB => image
        | M_RGBA | M_LA | M_P => converted_for M_RGB image
        | _ => PILImage.convert image M_RGB
        end).
Proof.
  unfold resize_image_to_rgb, converted_for, mode_in, mode_is.
  rewrite new_on_size.
  destruct image as [m w h p]; destruct m; reflexivity.
Qed.

Lemma process_image_to_rgb_same (image : Image) :
  process_image_to_rgb image = resize_image_to_rgb image.
Proof.
  unfold process_image_to_rgb, resize_image_to_rgb, mode_in, mode_is.
  rewrite new_on_size.
  destruct image as [m w h p]; destruct m; reflexivity.
Qed.

Lemma resize_image_to_rgb_shape (image rgb : Image) :
  resize_image_to_rgb image = Ok rgb ->
  mode rgb = M_RGB /\ width rgb = width image /\ height rgb = height image.
Proof.
  rewrite resize_image_to_rgb_cases. intros H. inversion H; subst; clear H.
  destruct image as [m w h p]; destruct m; simpl; auto.
Qed.

Lemma pil_resize_shape (pil : PIL) (im out : Image) (w h : Z) :
  pil_resize pil im (w, h) = Ok out ->
  mode out = mode im /\ size out = (w, h).
Proof.
  unfold pil_resize.
  destruct ((fst (size im) =? w) && (snd (size im) =? h)) eqn:Esame.
  - intros H; inversion H; subst. split; [reflexivity|].
    apply andb_true_iff in Esame. destruct Esame as [Hw Hh].
    apply Z.eqb_eq in Hw, Hh. destruct (size out); simpl in *; congruence.
  - destruct ((w <? 1) || (h <? 1)) eqn:Esmall; [discriminate|].
    intros H; inversion H; subst. split; [reflexivity|].
    apply orb_false_iff in Esmall. destruct Esmall as [Hw Hh].
    apply Z.ltb_ge in Hw, Hh. unfold size. simpl. rewrite !Z2N.id by lia.
    reflexivity.
Qed.

Lemma pil_resize_total (pil : PIL) (im : Image) (w h : Z) :
  0 < w -> 0 < h -> exists out, pil_resize pil im (w, h) = Ok out.
Proof.
  intros Hw Hh. unfold pil_resize.
  destruct ((fst (size im) =? w) && (snd (size im) =? h)); [eauto|].
  replace ((w <? 1) || (h <? 1)) with false; [eauto|].
  symmetry. apply orb_false_iff. split; apply Z.ltb_ge; lia.
Qed.

(** C2, where the code falls short of it: fitting a 2000x1 image into the
    1080x1080 square scales its height to [int(1 * 0.54) = 0], and the
    resize to 1080x0 is refused, so no image is returned. *)
Theorem resize_image_fit_thin_image_raises :
  forall (pil : PIL) (pixels : Z -> Z -> Color),
    resize_image pil (mkImage M_RGB 2000 1 pixels) SQUARE_1080 None true
    = Raise (ValueError "height and width must be > 0").
Proof. intros. vm_compute. reflexivity. Qed.

Lemma inside_iff (im : Image) (x y : Z) :
  PILImage.inside im x y = true
  <-> 0 <= x < Z.of_N (width im) /\ 0 <= y < Z.of_N (height im).
Proof.
  unfold PILImage.inside. rewrite !andb_true_iff, !Z.leb_le, !Z.ltb_lt. lia.
Qed.

Lemma inside_false (im : Image) (x y : Z) :
  ~ (0 <= x < Z.of_N (width im) /\ 0 <= y < Z.of_N (height im)) ->
  PILImage.inside im x y = false.
Proof.
  intros H. destruct (PILImage.inside im x y) eqn:E; [|reflexivity].
  apply inside_iff in E. contradiction.
Qed.

(** Stretching returns an image of exactly the target size. *)
Lemma resize_image_stretch_exact (pil : PIL) (image : Image)
    (preset : ResizePreset) (custom_size : option (Z * Z)) (tw th : Z) :
  get_preset_dimensions preset custom_size = Ok (tw, th) ->
  0 < tw -> 0 < th ->
  exists out,
    resize_image pil image preset custom_size false = Ok out
    /\ mode out = M_RGB /\ size out = (tw, th).
Proof.
  intros Hdim Hw Hh. unfold resize_image. rewrite Hdim. cbn [bind].
  destruct (resize_image_to_rgb image) as [rgb|e] eqn:Ergb;
    [|rewrite resize_image_to_rgb_cases in Ergb; discriminate].
  cbn [bind]. destruct (pil_resize_total pil rgb tw th Hw Hh) as [out Hout].
  exists out. split; [exact Hout|].
  destruct (pil_resize_shape _ _ _ _ _ Hout) as [Hm Hs].
  destruct (resize_image_to_rgb_shape _ _ Ergb) as [Hrgb _].
  split; congruence.
Qed.

(** Whenever fitting returns an image, it has exactly the target size. *)
Lemma resize_image_fit_exact (pil : PIL) (image out : Image)
    (preset : ResizePreset) (custom_size : option (Z * Z)) (tw th : Z) :
  get_preset_dimensions preset custom_size = Ok (tw, th) ->
  resize_image pil image preset custom_size true = Ok out ->
  mode out = M_RGB /\ size out = (tw, th).
Proof.
  intros Hdim. unfold resize_image. rewrite Hdim. cbn [bind].
  destruct (resize_image_to_rgb image) as [rgb|e]; [|discriminate]. cbn [bind].
  destruct (size rgb) as [ow oh].
  destruct (PyFloat.int_truediv tw ow) as [rw|]; [|discriminate]. cbn [bind].
  destruct (PyFloat.int_truediv th oh) as [rh|]; [|discriminate]. cbn [bind].
  destruct (PyFloat.int_mul ow (PyFloat.min rw rh)) as [fx|]; [|discriminate].
  cbn [bind].
  destruct (PyFloat.to_int fx) as [nw|]; [|discriminate]. cbn [bind].
  destruct (PyFloat.int_mul oh (PyFloat.min rw rh)) as [fy|]; [|discriminate].
  cbn [bind].
  destruct (PyFloat.to_int fy) as [nh|]; [|discriminate]. cbn [bind].
  destruct (pil_resize pil rgb (nw, nh)) as [resized|]; [|discriminate].
  cbn [bind]. unfold PILImage.new.
  destruct ((tw <? 0) || (th <? 0)) eqn:Eneg; [discriminate|]. cbn [bind].
  intros H. inversion H; subst; clear H.
  apply orb_false_iff in Eneg. destruct Eneg as [Hw Hh].
  apply Z.ltb_ge in Hw, Hh.
  unfold size. simpl. rewrite !Z2N.id by lia. auto.
Qed.

(** Whenever the centre crop returns an image, it has exactly the target
    size. *)
Lemma crop_to_aspect_exact (pil : PIL) (image out : Image) (tw th : Z) :
  crop_to_aspect pil image tw th = Ok out ->
  mode out = mode image /\ size out = (tw, th).
Proof.
  unfold crop_to_aspect.
  destruct (PyFloat.int_truediv tw th) as [tr|]; [|discriminate]. cbn [bind].
  destruct (size image) as [ow oh].
  destruct (PyFloat.int_truediv ow oh) as [r|]; [|discriminate]. cbn [bind].
  match goal with
  | |- bind ?c _ = _ -> _ => destruct c as [cropped|] eqn:Ecrop; [|discriminate]
  end.
  cbn [bind]. intros Hres.
  destruct (pil_resize_shape _ _ _ _ _ Hres) as [Hm Hs].
  split; [|exact Hs]. rewrite Hm.
  destruct (PyFloat.gt r tr).
  - destruct (bind (PyFloat.int_mul oh tr) PyFloat.to_int) as [nw|];
      [|discriminate].
    cbn [bind] in Ecrop. unfold PILImage.crop in Ecrop.
    repeat match type of Ecrop with
           | context [if ?b then _ else _] => destruct b; [discriminate|]
           end.
    inversion Ecrop; reflexivity.
  - destruct (bind (PyFloat.int_div ow tr) PyFloat.to_int) as [nh|];
      [|discriminate].
    cbn [bind] in Ecrop. unfold PILImage.crop in Ecrop.
    repeat match type of Ecrop with
           | context [if ?b then _ else _] => destruct b; [discriminate|]
           end.
    inversion Ecrop; reflexivity.
Qed.

(** The layout of a 2000x1000 picture fitted into the 1080x1080 square. *)
Lemma fit_2000x1000_layout (pil : PIL) (pixels : Z -> Z -> Color) :
  resize_image pil (mkImage M_RGB 2000 1000 pixels) SQUARE_1080 None true
  = Ok (PILImage.paste
          (mkImage M_RGB 1080 1080 (fun _ _ => white))
          (mkImage M_RGB 1080 540
             (lanczos pil (mkImage M_RGB 2000 1000 pixels) 1080 540))
          (0, 270)).
Proof. vm_compute. reflexivity. Qed.

(** C4 (amended). For a 2000x1000 RGB input named "photo.png", the Square
    preset and the Fit strategy, [process_image] encodes as PNG an RGB
    image of exactly 1080x1080: the content is scaled by 0.54 to 1080x540,
    spans the full width, and lies between a white band of 270 rows at the
    top and one of 270 rows at the bottom. *)
Theorem fit_2000x1000_into_square :
  forall (pil : PIL) (image_data : bytes) (pixels : Z -> Z -> Color)
         (quality : Z),
    image_open pil image_data = Ok (mkImage M_RGB 2000 1000 pixels) ->
    exists (out : Image) (ratio : spec_float),
      process_image_prepare pil image_data "photo.png" SQUARE_1080 None None
        true false quality
      = Ok (out, mkSaveArgs "PNG" None (Some true), ".png")
      /\ mode out = M_RGB /\ size out = (1080, 1080)
      /\ PyFloat.int_truediv 54 100 = Ok ratio
      /\ PyFloat.int_truediv 1080 1000
         = Ok (S754_finite false 4863887597560136 (-52))
      /\ PyFloat.min ratio (S754_finite false 4863887597560136 (-52)) = ratio
      /\ PyFloat.int_truediv 1080 2000 = Ok ratio
      /\ (x <- PyFloat.int_mul 2000 ratio ;; PyFloat.to_int x) = Ok 1080
      /\ (y <- PyFloat.int_mul 1000 ratio ;; PyFloat.to_int y) = Ok 540
      /\ (forall x y, 0 <= x < 1080 -> 0 <= y < 270 \/ 810 <= y < 1080 ->
            px out x y = white)
      /\ (forall x y, 0 <= x < 1080 -> 270 <= y < 810 ->
            px out x y
            = PILImage.opaque
                (lanczos pil (mkImage M_RGB 2000 1000 pixels) 1080 540
                   x (y - 270))).
Proof.
  intros pil image_data pixels quality Hopen.
  exists (PILImage.paste
            (mkImage M_RGB 1080 1080 (fun _ _ => white))
            (mkImage M_RGB 1080 540
               (lanczos pil (mkImage M_RGB 2000 1000 pixels) 1080 540))
            (0, 270)).
  exists (S754_finite false 4863887597560136 (-53)).
  split.
  { unfold process_image_prepare. rewrite Hopen. cbn [bind get_preset_dimensions
      PRESET_DIMENSIONS]. rewrite fit_2000x1000_layout. reflexivity. }
  split; [reflexivity|]. split; [reflexivity|].
  split; [vm_compute; reflexivity|]. split; [vm_compute; reflexivity|].
  split; [vm_compute; reflexivity|]. split; [vm_compute; reflexivity|].
  split; [vm_compute; reflexivity|]. split; [vm_compute; reflexivity|].
  split.
  - intros x y Hx Hy. unfold PILImage.paste. cbn [px mode carries_alpha].
    rewrite inside_false; [reflexivity|]. cbn [width height]. lia.
  - intros x y Hx Hy. unfold PILImage.paste. cbn [px mode carries_alpha].
    replace (PILImage.inside _ (x - 0) (y - 270)) with true.
    + now rewrite Z.sub_0_r.
    + symmetry. apply inside_iff. cbn [width height]. lia.
Qed.

Lemma fit_2000x1000_into_square_witness :
  exists out : Image,
    process_image_prepare
      (Sample.showing (Sample.solid M_RGB 2000 1000 (mkColor 0 0 0 255)))
      [Byte.x89] "photo.png" SQUARE_1080 None None true false 95
    = Ok (out, mkSaveArgs "PNG" None (Some true), ".png")
    /\ size out = (1080, 1080)
    /\ px out 0 0 = white /\ px out 1079 269 = white
    /\ px out 0 270 = mkColor 0 0 0 255 /\ px out 1079 809 = mkColor 0 0 0 255
    /\ px out 0 810 = white /\ px out 1079 1079 = white.
Proof.
  destruct (fit_2000x1000_into_square
              (Sample.showing (Sample.solid M_RGB 2000 1000 (mkColor 0 0 0 255)))
              [Byte.x89] (fun _ _ => mkColor 0 0 0 255) 95 eq_refl)
    as (out & ratio & Hrun & _ & Hsize & _ & _ & _ & _ & _ & _ & Hband & Hcontent).
  exists out. split; [exact Hrun|]. split; [exact Hsize|].
  split; [apply Hband; lia|]. split; [apply Hband; lia|].
  split; [rewrite Hcontent by lia; reflexivity|].
  split; [rewrite Hcontent by lia; reflexivity|].
  split; apply Hband; lia.
Defined.

(** C4, as stated, fails: with an all-black 2000x1000 input, row 135 of
    the output is still white padding, as is every row down to 269; the
    content fills rows 270 to 809 and the bottom band starts at row 810. *)
Lemma fit_padding_is_not_135 :
  exists (out : Image) (args : SaveArgs) (extension : string),
    process_image_prepare
      (Sample.showing (Sample.solid M_RGB 2000 1000 (mkColor 0 0 0 255)))
      [Byte.x89] "photo.png" SQUARE_1080 None None true false 95
    = Ok (out, args, extension)
    /\ px out 540 135 = white /\ px out 540 269 = white
    /\ px out 540 270 = mkColor 0 0 0 255
    /\ px out 540 809 = mkColor 0 0 0 255
    /\ px out 540 810 = white /\ px out 540 944 = white.
Proof.
  eexists. eexists. eexists. split; [vm_compute; reflexivity|].
  repeat split.
Qed.

(** ** Colour modes *)

Lemma convert_format_cases (image : Image) (target_format : string) :
  convert_format image target_format
  = match dict_get format_map (PyStr.upper target_format) with
    | Some (extension, m) => Ok (converted_for m image, extension)
    | None => Raise (unsupported target_format)
    end.
Proof.
  unfold convert_format.
  destruct (dict_get format_map (PyStr.upper target_format)) as [[ext m]|];
    [|reflexivity].
  rewrite new_on_size. unfold converted_for, mode_in, mode_is.
  destruct image as [im w h p]. destruct m, im; reflexivity.
Qed.


Lemma convert_format_jpeg (image : Image) (target_format : string) :
  In (PyStr.upper target_format) ["JPEG"; "JPG"] ->
  convert_format image target_format = Ok (converted_for M_RGB image, ".jpg").
Proof.
  intros H. rewrite convert_format_cases.
  destruct H as [<-|[<-|[]]]; reflexivity.
Qed.


Lemma resize_image_mode (pil : PIL) (image out : Image) (preset : ResizePreset)
    (custom_size : option (Z * Z)) (maintain_aspect : bool) :
  resize_image pil image preset custom_size maintain_aspect = Ok out ->
  mode out = M_RGB.
Proof.
  destruct maintain_aspect.
  - intros H.
    destruct (get_preset_dimensions preset custom_size) as [[tw th]|] eqn:Hd.
    + exact (proj1 (resize_image_fit_exact _ _ _ _ _ _ _ Hd H)).
    + unfold resize_image in H. rewrite Hd in H. discriminate.
  - unfold resize_image.
    destruct (get_preset_dimensions preset custom_size) as [[tw th]|];
      [|discriminate].
    cbn [bind].
    destruct (resize_image_to_rgb image) as [rgb|] eqn:Ergb; [|discriminate].
    cbn [bind]. intros H.
    rewrite (proj1 (pil_resize_shape _ _ _ _ _ H)).
    exact (proj1 (resize_image_to_rgb_shape _ _ Ergb)).
Qed.

(** The geometry stage of [process_image] hands on an RGB image. *)
Lemma process_image_geometry_mode (pil : PIL) (image out : Image)
    (preset : ResizePreset) (custom_size : option (Z * Z)) (tw th : Z)
    (maintain_aspect crop_to_fit : bool) :
  (if crop_to_fit then
     image <- process_image_to_rgb image ;; crop_to_aspect pil image tw th
   else resize_image pil image preset custom_size maintain_aspect) = Ok out ->
  mode out = M_RGB.
Proof.
  destruct crop_to_fit.
  - rewrite process_image_to_rgb_same.
    destruct (resize_image_to_rgb image) as [rgb|] eqn:Ergb; [|discriminate].
    cbn [bind]. intros H.
    rewrite (proj1 (crop_to_aspect_exact _ _ _ _ _ H)).
    exact (proj1 (resize_image_to_rgb_shape _ _ Ergb)).
  - apply resize_image_mode.
Qed.






(** * Further properties *)

(** ** Dimensions and geometry *)

(** A preset other than Custom resolves to the pair of the table,
    whatever custom size is passed along, and both sides are positive. *)
Theorem fixed_presets_ignore_custom_size :
  forall (preset : ResizePreset) (custom_size : option (Z * Z)),
    preset <> CUSTOM ->
    exists w h,
      PRESET_DIMENSIONS preset = Some (w, h)
      /\ get_preset_dimensions preset custom_size = Ok (w, h)
      /\ get_preset_dimensions preset None = Ok (w, h)
      /\ 0 < w /\ 0 < h.
Proof.
  intros preset custom_size H.
  destruct preset; try congruence; simpl;
    eexists; eexists; repeat split; lia.
Qed.

Lemma fixed_presets_ignore_custom_size_witness :
  get_preset_dimensions PASSPORT (Some (-3, 0)) = Ok (413, 531).
Proof.
  destruct (fixed_presets_ignore_custom_size PASSPORT (Some (-3, 0))
              ltac:(discriminate))
    as (w & h & Htab & Hres & _).
  simpl in Htab. inversion Htab; subst. exact Hres.
Defined.





(** X3. Whatever the Fit strategy returns is an RGB image of exactly the
    target size: the source, turned to RGB and resized to some width and
    height, sits in the centred box (the margins on either side differ by
    at most one pixel) and every pixel outside the box is white. *)
Theorem fit_result_is_centred_on_white :
  forall (pil : PIL) (image out : Image) (preset : ResizePreset)
         (custom_size : option (Z * Z)) (tw th : Z),
    get_preset_dimensions preset custom_size = Ok (tw, th) ->
    resize_image pil image preset custom_size true = Ok out ->
    mode out = M_RGB /\ size out = (tw, th)
    /\ exists (rgb resized : Image) (new_w new_h : Z),
         resize_image_to_rgb image = Ok rgb
         /\ pil_resize pil rgb (new_w, new_h) = Ok resized
         /\ size resized = (new_w, new_h)
         /\ 0 <= (tw - new_w) - 2 * ((tw - new_w) / 2) <= 1
         /\ 0 <= (th - new_h) - 2 * ((th - new_h) / 2) <= 1
         /\ (forall x y,
               in_centre_box tw th new_w new_h x y ->
               px out x y
               = PILImage.opaque
                   (px resized (x - (tw - new_w) / 2) (y - (th - new_h) / 2)))
         /\ (forall x y,
               ~ in_centre_box tw th new_w new_h x y -> px out x y = white).
Proof.
  intros pil image out preset custom_size tw th Hd Hres.
  destruct (resize_image_fit_exact _ _ _ _ _ _ _ Hd Hres) as [Hm Hs].
  split; [exact Hm|]. split; [exact Hs|].
  unfold resize_image in Hres. rewrite Hd in Hres. cbn [bind] in Hres.
  destruct (resize_image_to_rgb image) as [rgb|]; [|discriminate].
  cbn [bind] in Hres. destruct (size rgb) as [ow oh].
  destruct (PyFloat.int_truediv tw ow) as [rw|]; [|discriminate].
  cbn [bind] in Hres.
  destruct (PyFloat.int_truediv th oh) as [rh|]; [|discriminate].
  cbn [bind] in Hres.
  destruct (PyFloat.int_mul ow (PyFloat.min rw rh)) as [fx|]; [|discriminate].
  cbn [bind] in Hres.
  destruct (PyFloat.to_int fx) as [nw|]; [|discriminate]. cbn [bind] in Hres.
  destruct (PyFloat.int_mul oh (PyFloat.min rw rh)) as [fy|]; [|discriminate].
  cbn [bind] in Hres.
  destruct (PyFloat.to_int fy) as [nh|]; [|discriminate]. cbn [bind] in Hres.
  destruct (pil_resize pil rgb (nw, nh)) as [resized|] eqn:Hrs; [|discriminate].
  cbn [bind] in Hres. unfold PILImage.new in Hres.
  destruct ((tw <? 0) || (th <? 0)); [discriminate|]. cbn [bind] in Hres.
  inversion Hres; subst; clear Hres.
  destruct (pil_resize_shape _ _ _ _ _ Hrs) as [_ Hsz].
  exists rgb, resized, nw, nh.
  split; [reflexivity|]. split; [exact Hrs|]. split; [exact Hsz|].
  split; [pose proof (Z.div_mod (tw - nw) 2); pose proof (Z.mod_pos_bound (tw - nw) 2); lia|].
  split; [pose proof (Z.div_mod (th - nh) 2); pose proof (Z.mod_pos_bound (th - nh) 2); lia|].
  unfold size in Hsz. inversion Hsz as [[Hrw Hrh]].
  split.
  - intros x y [Hx Hy]. unfold PILImage.paste. cbn [px mode carries_alpha].
    replace (PILImage.inside resized _ _) with true; [reflexivity|].
    symmetry. apply inside_iff. lia.
  - intros x y Hout. unfold PILImage.paste. cbn [px mode carries_alpha].
    rewrite inside_false; [reflexivity|].
    unfold in_centre_box in Hout. lia.
Qed.

Lemma fit_result_is_centred_on_white_witness :
  exists out,
    resize_image Sample.pil (Sample.solid M_RGB 2 1 (mkColor 0 0 0 255))
      CUSTOM (Some (5, 5)) true = Ok out
    /\ size out = (5, 5).
Proof.
  eexists. split; [vm_compute; reflexivity|].
  refine (proj1 (proj2 (fit_result_is_centred_on_white Sample.pil
                          (Sample.solid M_RGB 2 1 (mkColor 0 0 0 255)) _
                          CUSTOM (Some (5, 5)) 5 5 eq_refl _))).
  vm_compute; reflexivity.
Defined.

(** ** What is handed to the encoder *)

Lemma converted_for_size (m : Mode) (image : Image) :
  size (converted_for m image) = size image.
Proof. destruct image as [im w h p]. destruct m, im; reflexivity. Qed.

Lemma convert_format_size (image out : Image) (f extension : string) :
  convert_format image f = Ok (out, extension) -> size out = size image.
Proof.
  rewrite convert_format_cases.
  destruct (dict_get format_map (PyStr.upper f)) as [[ext m]|]; [|discriminate].
  intros H. inversion H; subst. apply converted_for_size.
Qed.

Lemma process_image_geometry_size (pil : PIL) (image out : Image)
    (preset : ResizePreset) (custom_size : option (Z * Z)) (tw th : Z)
    (maintain_aspect crop_to_fit : bool) :
  get_preset_dimensions preset custom_size = Ok (tw, th) ->
  (if crop_to_fit then
     image <- process_image_to_rgb image ;; crop_to_aspect pil image tw th
   else resize_image pil image preset custom_size maintain_aspect) = Ok out ->
  size out = (tw, th).
Proof.
  intros Hd. destruct crop_to_fit.
  - destruct (process_image_to_rgb image) as [rgb|]; [|discriminate].
    cbn [bind]. intros H. exact (proj2 (crop_to_aspect_exact _ _ _ _ _ H)).
  - destruct maintain_aspect.
    + intros H. exact (proj2 (resize_image_fit_exact _ _ _ _ _ _ _ Hd H)).
    + unfold resize_image. rewrite Hd. cbn [bind].
      destruct (resize_image_to_rgb image) as [rgb|]; [|discriminate].
      cbn [bind]. intros H. exact (proj2 (pil_resize_shape _ _ _ _ _ H)).
Qed.

(** The steps of [process_image_prepare], named. *)
Lemma process_image_prepare_steps (pil : PIL) (image_data : bytes)
    (filename : string) (preset : ResizePreset) (custom_size : option (Z * Z))
    (target_format : option string) (maintain_aspect crop_to_fit : bool)
    (quality : Z) (out : Image) (args : SaveArgs) (extension : string) :
  process_image_prepare pil image_data filename preset custom_size
    target_format maintain_aspect crop_to_fit quality
  = Ok (out, args, extension) ->
  exists (image processed converted : Image) (tw th : Z) (fmt : string),
    image_open pil image_data = Ok image
    /\ get_preset_dimensions preset custom_size = Ok (tw, th)
    /\ (if crop_to_fit then
          image <- process_image_to_rgb image ;; crop_to_aspect pil image tw th
        else resize_image pil image preset custom_size maintain_aspect)
       = Ok processed
    /\ match requested target_format with
       | Some f =>
           convert_format processed f = Ok (converted, extension)
           /\ fmt = jpg_as_jpeg (PyStr.upper f)
       | None =>
           converted = processed
           /\ extension = "." ++ source_extension filename
           /\ fmt = jpg_as_jpeg (PyStr.upper (source_extension filename))
       end
    /\ args = (if String.eqb fmt "JPEG" || String.eqb fmt "WEBP" then
                 mkSaveArgs fmt (Some quality) (Some true)
               else if String.eqb fmt "PNG" then mkSaveArgs fmt None (Some true)
               else mkSaveArgs fmt None None)
    /\ out = (if String.eqb fmt "JPEG" && negb (mode_is converted "RGB") then
                PILImage.convert converted M_RGB
              else converted).
Proof.
  unfold process_image_prepare.
  destruct (image_open pil image_data) as [image|]; [|discriminate]. cbn [bind].
  destruct (get_preset_dimensions preset custom_size) as [[tw th]|];
    [|discriminate].
  cbn [bind].
  match goal with
  | |- bind ?g _ = _ -> _ => destruct g as [processed|] eqn:G; [|discriminate]
  end.
  cbn [bind]. fold (source_extension filename).
  destruct (requested target_format) as [f|].
  - destruct (convert_format processed f) as [[converted ext]|] eqn:C;
      [|discriminate].
    cbn [bind]. intros H. inversion H; subst.
    exists image, processed, converted, tw, th, (jpg_as_jpeg (PyStr.upper f)).
    repeat split; auto.
  - cbn [bind]. intros H. inversion H; subst.
    exists image, processed, processed, tw, th,
      (jpg_as_jpeg (PyStr.upper (source_extension filename))).
    repeat split; auto.
Qed.

Lemma jpg_as_jpeg_neq (fmt : string) : jpg_as_jpeg fmt <> "JPG".
Proof.
  unfold jpg_as_jpeg. destruct (String.eqb_spec fmt "JPG"); congruence.
Qed.

(** X4. Whenever [process_image] gets as far as encoding, the image it
    encodes has exactly the resolved target size, for every strategy and
    every output format. *)
Theorem encoded_image_has_target_size :
  forall (pil : PIL) (image_data : bytes) (filename : string)
         (preset : ResizePreset) (custom_size : option (Z * Z))
         (target_format : option string) (maintain_aspect crop_to_fit : bool)
         (quality : Z) (out : Image) (args : SaveArgs) (extension : string)
         (tw th : Z),
    get_preset_dimensions preset custom_size = Ok (tw, th) ->
    process_image_prepare pil image_data filename preset custom_size
      target_format maintain_aspect crop_to_fit quality
    = Ok (out, args, extension) ->
    size out = (tw, th).
Proof.
  intros pil image_data filename preset custom_size target_format
    maintain_aspect crop_to_fit quality out args extension tw th Hd H.
  destruct (process_image_prepare_steps _ _ _ _ _ _ _ _ _ _ _ _ H)
    as (image & processed & converted & tw' & th' & fmt
        & _ & Hd' & Hg & Hc & _ & Hout).
  rewrite Hd in Hd'. inversion Hd'; subst tw' th'.
  pose proof (process_image_geometry_size _ _ _ _ _ _ _ _ _ Hd Hg) as Hsz.
  assert (Hconv : size converted = (tw, th)).
  { destruct (requested target_format) as [f|].
    - destruct Hc as [Hc _]. rewrite (convert_format_size _ _ _ _ Hc). exact Hsz.
    - destruct Hc as [-> _]. exact Hsz. }
  rewrite Hout.
  destruct (String.eqb fmt "JPEG" && negb (mode_is converted "RGB")); exact Hconv.
Qed.

Lemma encoded_image_has_target_size_witness :
  exists out args extension,
    process_image_prepare Sample.pil [Byte.x01; Byte.x02; Byte.x03] "row.bmp"
      PASSPORT None (Some "webp") false true 80 = Ok (out, args, extension)
    /\ size out = (413, 531).
Proof.
  eexists. eexists. eexists. split; [vm_compute; reflexivity|].
  refine (encoded_image_has_target_size Sample.pil
            [Byte.x01; Byte.x02; Byte.x03] "row.bmp" PASSPORT None (Some "webp")
            false true 80 _ _ _ 413 531 eq_refl _).
  vm_compute; reflexivity.
Defined.

Lemma convert_format_ok_cases (image out : Image) (f extension : string) :
  convert_format image f = Ok (out, extension) ->
  (In (PyStr.upper f) ["JPEG"; "JPG"]
   /\ out = converted_for M_RGB image /\ extension = ".jpg")
  \/ (PyStr.upper f = "PNG"
      /\ out = converted_for M_RGBA image /\ extension = ".png")
  \/ (PyStr.upper f = "WEBP"
      /\ out = converted_for M_RGBA image /\ extension = ".webp").
Proof.
  rewrite convert_format_cases. unfold format_map, dict_get.
  destruct (String.eqb_spec (PyStr.upper f) "JPEG") as [E|_].
  { intros H; inversion H; subst. left. rewrite E. simpl. auto. }
  destruct (String.eqb_spec (PyStr.upper f) "JPG") as [E|_].
  { intros H; inversion H; subst. left. rewrite E. simpl. auto. }
  destruct (String.eqb_spec (PyStr.upper f) "PNG") as [E|_].
  { intros H; inversion H; subst. right. left. auto. }
  destruct (String.eqb_spec (PyStr.upper f) "WEBP") as [E|_].
  { intros H; inversion H; subst. right. right. auto. }
  discriminate.
Qed.

Lemma save_format_of_args (fmt : string) (quality : Z) :
  save_format
    (if String.eqb fmt "JPEG" || String.eqb fmt "WEBP" then
       mkSaveArgs fmt (Some quality) (Some true)
     else if String.eqb fmt "PNG" then mkSaveArgs fmt None (Some true)
     else mkSaveArgs fmt None None) = fmt.
Proof.
  destruct (String.eqb fmt "JPEG" || String.eqb fmt "WEBP");
    [|destruct (String.eqb fmt "PNG")]; reflexivity.
Qed.

(** X5. What [process_image] hands to the encoder: a format that is never
    "JPG"; an RGB or RGBA image, RGBA only when PNG or WEBP was requested
    and RGB whenever the format is JPEG; the quality for JPEG and WEBP and
    for no other format; the optimize flag for JPEG, WEBP and PNG and for
    no other format. *)
Theorem encoder_arguments :
  forall (pil : PIL) (image_data : bytes) (filename : string)
         (preset : ResizePreset) (custom_size : option (Z * Z))
         (target_format : option string) (maintain_aspect crop_to_fit : bool)
         (quality : Z) (out : Image) (args : SaveArgs) (extension : string),
    process_image_prepare pil image_data filename preset custom_size
      target_format maintain_aspect crop_to_fit quality
    = Ok (out, args, extension) ->
    save_format args <> "JPG"
    /\ (mode out = M_RGB \/ mode out = M_RGBA)
    /\ (save_format args = "JPEG" -> mode out = M_RGB)
    /\ (mode out = M_RGBA ->
        exists f, requested target_format = Some f
                  /\ In (PyStr.upper f) ["PNG"; "WEBP"])
    /\ save_quality args
       = (if existsb (String.eqb (save_format args)) ["JPEG"; "WEBP"]
          then Some quality else None)
    /\ save_optimize args
       = (if existsb (String.eqb (save_format args)) ["JPEG"; "WEBP"; "PNG"]
          then Some true else None).
Proof.
  intros pil image_data filename preset custom_size target_format
    maintain_aspect crop_to_fit quality out args extension H.
  destruct (process_image_prepare_steps _ _ _ _ _ _ _ _ _ _ _ _ H)
    as (image & processed & converted & tw & th & fmt
        & _ & _ & Hg & Hc & Hargs & Hout).
  apply process_image_geometry_mode in Hg.
  assert (Hfmt : fmt <> "JPG").
  { destruct (requested target_format); [destruct Hc as [_ ->]
                                         | destruct Hc as (_ & _ & ->)];
      apply jpg_as_jpeg_neq. }
  assert (Hconv : (mode converted = M_RGB)
                  \/ (mode converted = M_RGBA /\ fmt <> "JPEG"
                      /\ exists f, requested target_format = Some f
                                   /\ In (PyStr.upper f) ["PNG"; "WEBP"])).
  { destruct (requested target_format) as [f|].
    - destruct Hc as [Hc ->].
      destruct (convert_format_ok_cases _ _ _ _ Hc)
        as [(Hf & -> & _)|[(Hf & -> & _)|(Hf & -> & _)]].
      + left. unfold converted_for. now rewrite Hg.
      + right. unfold converted_for. rewrite Hg, Hf.
        split; [reflexivity|]. split; [discriminate|].
        exists f. rewrite Hf. simpl. auto.
      + right. unfold converted_for. rewrite Hg, Hf.
        split; [reflexivity|]. split; [discriminate|].
        exists f. rewrite Hf. simpl. auto.
    - destruct Hc as (-> & _). left. exact Hg. }
  assert (Hmode : mode out = mode converted).
  { rewrite Hout. destruct Hconv as [Hc'|(Hc' & Hj & _)].
    - unfold mode_is. rewrite Hc'. simpl. now rewrite andb_false_r.
    - destruct (String.eqb_spec fmt "JPEG"); [contradiction|reflexivity]. }
  assert (Hsf : save_format args = fmt) by (rewrite Hargs; apply save_format_of_args).
  rewrite Hsf, Hmode.
  split; [exact Hfmt|].
  split; [destruct Hconv as [Hc'|(Hc' & _)]; auto|].
  split; [intros Hj; destruct Hconv as [Hc'|(_ & Hn & _)]; [exact Hc'|contradiction]|].
  split; [intros Hm; destruct Hconv as [Hc'|(_ & _ & Hex)]; [congruence|exact Hex]|].
  rewrite Hargs. cbn [existsb].
  destruct (String.eqb fmt "JPEG"), (String.eqb fmt "WEBP"),
    (String.eqb fmt "PNG"); split; reflexivity.
Qed.

Lemma encoder_arguments_witness :
  exists out args extension,
    process_image_prepare Sample.pil [Byte.x01] "scan.JPG" SQUARE_1080 None
      None true false 70 = Ok (out, args, extension)
    /\ save_format args = "JPEG" /\ save_quality args = Some 70
    /\ mode out = M_RGB /\ extension = ".jpg".
Proof.
  eexists. eexists. eexists. split; [vm_compute; reflexivity|].
  pose proof (encoder_arguments Sample.pil [Byte.x01] "scan.JPG" SQUARE_1080
                None None true false 70 _ _ _ ltac:(vm_compute; reflexivity))
    as (_ & _ & Hj & _ & Hq & _).
  split; [reflexivity|]. split; [exact Hq|]. split; [exact (Hj eq_refl)|reflexivity].
Defined.



(** X7. The original filename reaches [process_image] only through its
    extension, and only when no format is requested: with a format
    requested two filenames give the same result, and with none requested
    so do two filenames with the same extension up to case. *)
Theorem process_image_filename_influence :
  forall (pil : PIL) (image_data : bytes) (filename other : string)
         (preset : ResizePreset) (custom_size : option (Z * Z))
         (target_format : option string) (maintain_aspect crop_to_fit : bool)
         (quality : Z),
    requested target_format <> None
    \/ source_extension filename = source_extension other ->
    process_image pil image_data filename preset custom_size target_format
      maintain_aspect crop_to_fit quality
    = process_image pil image_data other preset custom_size target_format
        maintain_aspect crop_to_fit quality.
Proof.
  intros pil image_data filename other preset custom_size target_format
    maintain_aspect crop_to_fit quality H.
  unfold process_image, process_image_prepare.
  fold (source_extension filename). fold (source_extension other).
  destruct (requested target_format) as [f|].
  - reflexivity.
  - destruct H as [H|H]; [congruence|]. now rewrite H.
Qed.

Lemma process_image_filename_influence_witness :
  process_image Sample.pil [Byte.x01] "a.JPG" SQUARE_1080 None None true false 90
  = process_image Sample.pil [Byte.x01] "b.c.jpg" SQUARE_1080 None None true
      false 90.
Proof.
  apply (process_image_filename_influence Sample.pil [Byte.x01] "a.JPG"
           "b.c.jpg" SQUARE_1080 None None true false 90).
  right. reflexivity.
Defined.

(** ** More on batches *)

Lemma split_at_first_failure {A B : Type} (f : A -> result B) (l : list A) :
  (exists outs, Forall2 (fun a b => f a = Ok b) l outs)
  \/ (exists pre bad post outs e,
        l = (pre ++ bad :: post)%list
        /\ Forall2 (fun a b => f a = Ok b) pre outs
        /\ f bad = Raise e).
Proof.
  induction l as [|a l IH].
  - left. exists []. constructor.
  - destruct (f a) as [b|e] eqn:Ea.
    + destruct IH as [[outs H]|(pre & bad & post & outs & e & -> & H & Hb)].
      * left. exists (b :: outs). now constructor.
      * right. exists (a :: pre), bad, post, (b :: outs), e.
        split; [reflexivity|]. split; [now constructor | exact Hb].
    + right. exists [], a, l, [], e. repeat split; [constructor | exact Ea].
Qed.

Lemma Forall2_ok_is_ok {A B : Type} (f : A -> result B) (l : list A)
    (outs : list B) :
  Forall2 (fun a b => f a = Ok b) l outs ->
  Forall (fun a => is_ok (f a) = true) l.
Proof.
  induction 1 as [|a b l outs Hab _ IH]; constructor; [|exact IH].
  now rewrite Hab.
Qed.

Section MoreBatchFacts.

Variable pil : PIL.
Variable preset : ResizePreset.
Variable custom_size : option (Z * Z).
Variable target_format : option string.
Variable maintain_aspect crop_to_fit : bool.
Variable quality : Z.
Variable prefix suffix : string.
Variable use_numbering : bool.

Let run_one (img_dict : ImageItem) : result (bytes * string) :=
  process_image pil (data img_dict) (name img_dict) preset custom_size
    target_format maintain_aspect crop_to_fit quality.

Let batch (progress_callback : bool) (images : list ImageItem) :=
  batch_process pil preset custom_size target_format maintain_aspect
    crop_to_fit quality prefix suffix use_numbering progress_callback images.

(** The two ways a batch can go. *)
Lemma batch_process_outcomes (progress_callback : bool) (images : list ImageItem) :
  (exists outs,
      Forall2 (fun img_dict out => run_one img_dict = Ok out) images outs
      /\ batch progress_callback images
         = (expected_trace progress_callback (Z.of_nat (List.length images))
              (enumerate 0 images),
            Ok (expected_results prefix suffix use_numbering images outs)))
  \/ (exists pre bad post outs e,
        images = (pre ++ bad :: post)%list
        /\ Forall2 (fun img_dict out => run_one img_dict = Ok out) pre outs
        /\ run_one bad = Raise e
        /\ batch progress_callback images
           = ((expected_trace progress_callback
                 (Z.of_nat (List.length images)) (enumerate 0 pre)
               ++ [EvProcess (Z.of_nat (List.length pre)) (name bad)])%list,
              Raise e)).
Proof.
  destruct (split_at_first_failure run_one images)
    as [[outs H]|(pre & bad & post & outs & e & -> & H & Hb)].
  - left. exists outs. split; [exact H|].
    unfold batch, batch_process.
    rewrite (batch_loop_all_ok pil preset custom_size target_format
               maintain_aspect crop_to_fit quality prefix suffix use_numbering
               progress_callback images outs 0 _ [] [] H).
    reflexivity.
  - right. exists pre, bad, post, outs, e.
    split; [reflexivity|]. split; [exact H|]. split; [exact Hb|].
    unfold batch, batch_process.
    rewrite (batch_loop_first_failure pil preset custom_size target_format
               maintain_aspect crop_to_fit quality prefix suffix use_numbering
               progress_callback pre outs bad post e 0 _ [] [] H Hb).
    reflexivity.
Qed.

(** X8. A batch returns its results exactly when every item can be
    processed on its own, and then it returns one result per item; one
    failing item, wherever it stands, makes the whole batch raise. *)
Theorem batch_succeeds_iff_every_item_does :
  forall (progress_callback : bool) (images : list ImageItem),
    ((exists results,
         snd (batch_process pil preset custom_size target_format
                maintain_aspect crop_to_fit quality prefix suffix
                use_numbering progress_callback images) = Ok results
         /\ List.length results = List.length images)
     <-> Forall (fun img_dict =>
                   is_ok (process_image pil (data img_dict) (name img_dict)
                            preset custom_size target_format maintain_aspect
                            crop_to_fit quality) = true) images)
    /\ (is_ok (snd (batch_process pil preset custom_size target_format
                      maintain_aspect crop_to_fit quality prefix suffix
                      use_numbering progress_callback images)) = true
        <-> Forall (fun img_dict =>
                      is_ok (process_image pil (data img_dict) (name img_dict)
                               preset custom_size target_format maintain_aspect
                               crop_to_fit quality) = true) images).
Proof.
  intros progress_callback images.
  fold (batch progress_callback images).
  destruct (batch_process_outcomes progress_callback images)
    as [(outs & H & ->)|(pre & bad & post & outs & e & -> & H & Hb & ->)];
    cbn [snd is_ok].
  - pose proof (Forall2_ok_is_ok run_one images outs H) as Hall.
    split; (split; [intros _; exact Hall|intros _]); [|reflexivity].
    eexists. split; [reflexivity|].
    unfold expected_results.
    rewrite length_map, length_enumerate, length_combine.
    apply Forall2_length in H. lia.
  - assert (Hnot : ~ Forall (fun img_dict => is_ok (run_one img_dict) = true)
                       (pre ++ bad :: post)).
    { intros Hall. apply Forall_app in Hall. destruct Hall as [_ Hall].
      inversion Hall as [|? ? Hbad _]; subst. rewrite Hb in Hbad. discriminate. }
    split; split; intros H'.
    + destruct H' as (r & Hr & _). discriminate.
    + contradiction.
    + discriminate.
    + contradiction.
Qed.



Lemma progress_reports_expected (total : Z) (l : list ImageItem) (start : Z) :
  progress_reports (expected_trace true total (enumerate start l))
  = map (fun i => (start + Z.of_nat i + 1, total)) (seq 0 (List.length l)).
Proof.
  revert start. induction l as [|it l IH]; intros start; simpl; [reflexivity|].
  rewrite Z.add_0_r. f_equal. rewrite IH, <- seq_shift, map_map.
  apply map_ext. intros i. f_equal. lia.
Qed.


End MoreBatchFacts.

(** ** More on filenames *)

(** X11. With no prefix, no suffix, no numbering and no new extension the
    original name comes back unchanged, whether it has an extension or
    not. *)
Theorem generate_filename_plain_is_identity :
  forall (original_name : string) (index : Z),
    generate_filename original_name index "" "" false None = original_name
    /\ generate_filename original_name index "" "" false (Some "")
       = original_name.
Proof.
  intros original_name index.
  assert (H : FilenameSpec.strip_extension original_name
              ++ FilenameSpec.original_extension original_name
              = original_name).
  { pose proof (split_name_spec original_name) as Hs.
    destruct (PyStr.contains "." original_name) eqn:C.
    - unfold PyStr.rsplit1, PyStr.item in Hs.
      destruct (PyStr.rsplit_once "." original_name) as [[h t]|] eqn:E.
      + apply rsplit_once_some in E. destruct E as [E _].
        simpl in Hs. injection Hs as H1 H2. rewrite <- H1, <- H2. now rewrite E.
      + apply rsplit_once_none in E. congruence.
    - injection Hs as H1 H2. rewrite <- H1, <- H2. apply append_empty_r. }
  split; rewrite generate_filename_unfold; cbn [final_extension requested
    PyStr.truthy]; simpl; rewrite append_empty_r; exact H.
Qed.

















Section NumberedNames.

Variable prefix suffix : string.

Let numbered (entry : Z * (ImageItem * (bytes * string))) : string :=
  let '(idx, (img_dict, (processed_data, extension))) := entry in
  generate_filename (name img_dict) (idx + 1) prefix suffix true
    (Some extension).



End NumberedNames.



(** ** More on format conversion and the archive *)

(** X13. When [convert_format] returns, the image keeps its size and the
    extension is ".jpg", ".png" or ".webp"; any spelling of the format
    that differs in case only, and "JPEG" for "JPG", gives the same
    result. For JPEG and JPG an RGBA, LA or palette image comes out RGB;
    for PNG and WEBP a palette or RGB image comes out RGBA; an image in any
    other mode is returned as it is. *)
Theorem convert_format_result :
  forall (image out : Image) (f extension : string),
    convert_format image f = Ok (out, extension) ->
    size out = size image
    /\ In extension [".jpg"; ".png"; ".webp"]
    /\ (forall g, PyStr.upper g = PyStr.upper f ->
                  convert_format image g = Ok (out, extension))
    /\ (In (PyStr.upper f) ["JPEG"; "JPG"] ->
        convert_format image "JPEG" = Ok (out, extension)
        /\ convert_format image "jpg" = Ok (out, extension)
        /\ mode out = (if mode_in image ["RGBA"; "P"; "LA"] then M_RGB
                       else mode image))
    /\ (In (PyStr.upper f) ["PNG"; "WEBP"] ->
        mode out = (if mode_in image ["P"; "RGB"] then M_RGBA else mode image))
    /\ (mode_in image ["RGBA"; "P"; "LA"; "RGB"] = false -> out = image).
Proof.
  intros image out f extension H.
  split; [exact (convert_format_size _ _ _ _ H)|].
  split.
  { destruct (convert_format_ok_cases _ _ _ _ H)
      as [(_ & _ & ->)|[(_ & _ & ->)|(_ & _ & ->)]]; simpl; auto. }
  split.
  { intros g Hg. rewrite convert_format_cases in *. rewrite Hg.
    destruct (dict_get format_map (PyStr.upper f)) as [[ext m]|];
      [exact H | discriminate]. }
  destruct (convert_format_ok_cases _ _ _ _ H)
    as [(Hf & -> & ->)|[(Hf & -> & ->)|(Hf & -> & ->)]].
  - split.
    { intros _.
      split; [apply convert_format_jpeg; simpl; auto|].
      split; [apply convert_format_jpeg; simpl; auto|].
      destruct image as [m w h p]. unfold mode_in. destruct m; reflexivity. }
    split.
    { intros Hp. destruct Hf as [Hf|[Hf|[]]]; rewrite <- Hf in Hp;
        simpl in Hp; intuition discriminate. }
    intros Hm. destruct image as [m w h p]. unfold mode_in in Hm.
    destruct m; try discriminate; reflexivity.
  - split.
    { intros Hj. rewrite Hf in Hj. simpl in Hj. intuition discriminate. }
    split.
    { intros _. destruct image as [m w h p]. unfold mode_in.
      destruct m; reflexivity. }
    intros Hm. destruct image as [m w h p]. unfold mode_in in Hm.
    destruct m; try discriminate; reflexivity.
  - split.
    { intros Hj. rewrite Hf in Hj. simpl in Hj. intuition discriminate. }
    split.
    { intros _. destruct image as [m w h p]. unfold mode_in.
      destruct m; reflexivity. }
    intros Hm. destruct image as [m w h p]. unfold mode_in in Hm.
    destruct m; try discriminate; reflexivity.
Qed.

Lemma convert_format_result_witness :
  exists out,
    convert_format (Sample.solid M_L 4 2 (mkColor 7 7 7 255)) "Jpg"
    = Ok (out, ".jpg")
    /\ out = Sample.solid M_L 4 2 (mkColor 7 7 7 255)
    /\ convert_format (Sample.solid M_L 4 2 (mkColor 7 7 7 255)) "JPEG"
       = Ok (out, ".jpg").
Proof.
  eexists. split; [reflexivity|].
  pose proof (convert_format_result (Sample.solid M_L 4 2 (mkColor 7 7 7 255))
                _ "Jpg" ".jpg" eq_refl) as (_ & _ & _ & Hj & _ & Hsame).
  split; [exact (Hsame eq_refl)|].
  apply Hj. simpl. auto.
Defined.


(** ** Strategy flags *)

Lemma batch_loop_same_runs (pil : PIL)
    (preset1 preset2 : ResizePreset) (custom1 custom2 : option (Z * Z))
    (format1 format2 : option string) (aspect1 aspect2 crop1 crop2 : bool)
    (quality1 quality2 : Z) (prefix suffix : string)
    (use_numbering progress_callback : bool) (total : Z)
    (items : list (Z * ImageItem)) :
  (forall img_dict,
      In img_dict (map snd items) ->
      process_image pil (data img_dict) (name img_dict) preset1 custom1 format1
        aspect1 crop1 quality1
      = process_image pil (data img_dict) (name img_dict) preset2 custom2
          format2 aspect2 crop2 quality2) ->
  forall results trace,
    batch_loop pil preset1 custom1 format1 aspect1 crop1 quality1 prefix suffix
      use_numbering progress_callback total items results trace
    = batch_loop pil preset2 custom2 format2 aspect2 crop2 quality2 prefix
        suffix use_numbering progress_callback total items results trace.
Proof.
  induction items as [|[idx it] items IH]; intros Hsame results trace;
    [reflexivity|].
  cbn [batch_loop]. rewrite (Hsame it) by (now left).
  destruct (process_image pil (data it) (name it) preset2 custom2 format2
              aspect2 crop2 quality2) as [[d ext]|]; [|reflexivity].
  apply IH. intros it' Hin. apply Hsame. now right.
Qed.

(** X15. [crop_to_fit] overrides [maintain_aspect]: with cropping on, a
    batch does the same and returns the same whether [maintain_aspect] is
    set or not. *)
Theorem crop_to_fit_overrides_maintain_aspect :
  forall (pil : PIL) (preset : ResizePreset) (custom_size : option (Z * Z))
         (target_format : option string) (quality : Z) (prefix suffix : string)
         (use_numbering progress_callback : bool) (images : list ImageItem),
    batch_process pil preset custom_size target_format true true quality
      prefix suffix use_numbering progress_callback images
    = batch_process pil preset custom_size target_format false true quality
        prefix suffix use_numbering progress_callback images
    /\ (forall image_data filename,
          process_image pil image_data filename preset custom_size
            target_format true true quality
          = process_image pil image_data filename preset custom_size
              target_format false true quality).
Proof.
  intros. split.
  - unfold batch_process. apply batch_loop_same_runs. reflexivity.
  - reflexivity.
Qed.

(** ** The page *)

Lemma map_item_id (files : list ImageItem) :
  map (fun f => mkItem (data f) (name f)) files = files.
Proof.
  induction files as [|[d n] files IH]; simpl; [reflexivity|]. now rewrite IH.
Qed.

(** X16. Whatever the widgets of the sidebar return within their options
    and bounds, the settings passed on are sound: the preset resolves to a
    size with both sides positive, at most one of the two strategy flags
    is set (Fit sets the first, Cover the second, Stretch none), the
    quality is between 1 and 100, and a requested format is one that
    [convert_format] accepts. *)
Theorem sidebar_settings_are_sound :
  forall ui : App.Widgets,
    App.widgets_valid ui ->
    exists cfg,
      App.sidebar ui = Ok cfg
      /\ (exists w h,
             get_preset_dimensions (App.selected_preset cfg) (App.custom_size cfg)
             = Ok (w, h) /\ 0 < w /\ 0 < h)
      /\ (App.maintain_aspect cfg, App.crop_to_fit cfg)
         = (String.eqb (App.resize_mode ui) "Fit (Contain)",
            String.eqb (App.resize_mode ui) "Fill (Cover)")
      /\ App.maintain_aspect cfg && App.crop_to_fit cfg = false
      /\ (App.resize_mode ui = "Stretch" ->
          App.maintain_aspect cfg = false /\ App.crop_to_fit cfg = false)
      /\ 1 <= App.quality cfg <= 100
      /\ (forall f, App.target_format cfg = Some f ->
            requested (Some f) = Some f
            /\ In f ["JPEG"; "PNG"; "WEBP"]
            /\ forall image, exists out extension,
                 convert_format image f = Ok (out, extension))
      /\ (App.target_format cfg = None <->
          App.target_format_opt ui = "Original Format").
Proof.
  intros ui (Hp & Hw & Hh & Hm & Hf & Hq).
  unfold App.sidebar.
  assert (Hpre : exists p, dict_get App.preset_map (App.preset_option ui) = Some p
                 /\ (p = CUSTOM \/ p <> CUSTOM)).
  { unfold App.preset_options in Hp.
    destruct Hp as [<-|[<-|[<-|[<-|[]]]]]; eexists; (split; [reflexivity|]);
      first [left; reflexivity | right; discriminate]. }
  destruct Hpre as (p & -> & Hcustom).
  eexists. split; [reflexivity|]. cbn [App.selected_preset App.custom_size
    App.maintain_aspect App.crop_to_fit App.quality App.target_format].
  split.
  { destruct Hcustom as [->|Hn].
    - exists (App.custom_width ui), (App.custom_height ui).
      split; [reflexivity|lia].
    - destruct (get_preset_dimensions_fixed p None Hn) as (w & h & Hd & Hw' & Hh').
      exists w, h. split; [|lia]. destruct p; try congruence; exact Hd. }
  split; [reflexivity|].
  split.
  { unfold App.resize_modes in Hm.
    destruct Hm as [<-|[<-|[<-|[]]]]; reflexivity. }
  split; [intros ->; split; reflexivity|].
  split.
  { destruct (String.eqb (App.target_format_opt ui) "Original Format");
      [lia|].
    destruct (existsb (String.eqb (App.target_format_opt ui)) ["JPEG"; "WEBP"]);
      lia. }
  split.
  { intros f Hsome. unfold App.format_options in Hf.
    destruct Hf as [Hf|[Hf|[Hf|[Hf|[]]]]]; rewrite <- Hf in Hsome;
      simpl in Hsome; try discriminate; inversion Hsome; subst f;
      (split; [reflexivity|]); (split; [simpl; tauto|]);
      intros image; apply convert_format_supported; simpl; tauto. }
  unfold App.format_options in Hf.
  destruct Hf as [Hf|[Hf|[Hf|[Hf|[]]]]]; rewrite <- Hf; simpl;
    split; intros; congruence.
Qed.

Lemma sidebar_settings_are_sound_witness :
  App.sidebar (App.mkWidgets "Custom Dimensions" 800 600 "Fill (Cover)" "PNG"
                 40 "web_" "" true)
  = Ok (App.mkSettings CUSTOM (Some (800, 600)) false true (Some "PNG") 95
          "web_" "" true).
Proof.
  destruct (sidebar_settings_are_sound
              (App.mkWidgets "Custom Dimensions" 800 600 "Fill (Cover)" "PNG"
                 40 "web_" "" true))
    as (cfg & Hcfg & _).
  - unfold App.widgets_valid. simpl. repeat split; try lia; tauto.
  - reflexivity.
Defined.






(** ** Binary64 arithmetic on sizes *)


Lemma digits2_pos_size (p : positive) : digits2_pos p = Pos.size p.
Proof. induction p; simpl; congruence. Qed.

Lemma Zdigits2_log2 (z : Z) : 0 < z -> Zdigits2 z = Z.log2 z + 1.
Proof.
  destruct z as [|p|p]; try lia. intros _. simpl.
  rewrite digits2_pos_size. destruct p; simpl; lia.
Qed.

Lemma Zdigits2_bounds (z : Z) :
  0 < z -> 2 ^ (Zdigits2 z - 1) <= z < 2 ^ Zdigits2 z.
Proof.
  intros H. rewrite Zdigits2_log2 by exact H.
  replace (Z.log2 z + 1 - 1) with (Z.log2 z) by lia.
  pose proof (Z.log2_spec z H). replace (Z.log2 z + 1) with (Z.succ (Z.log2 z)) by lia.
  exact H0.
Qed.

Lemma Zdigits2_unique (z k : Z) :
  2 ^ (k - 1) <= z < 2 ^ k -> 0 < k -> Zdigits2 z = k.
Proof.
  intros H Hk.
  assert (0 < z) by (pose proof (Z.pow_pos_nonneg 2 (k - 1)); lia).
  rewrite Zdigits2_log2 by assumption.
  rewrite (Z.log2_unique z (k - 1)); try lia.
  replace (Z.succ (k - 1)) with k by lia. exact H.
Qed.


Lemma shr_1_m (mrs : shr_record) :
  0 <= shr_m mrs -> shr_m (shr_1 mrs) = shr_m mrs / 2.
Proof.
  destruct mrs as [m r s]. simpl. intros H.
  destruct m as [|[p|p|]|p]; try lia; simpl; try reflexivity.
  - rewrite Pos2Z.inj_xI. apply Z.div_unique with (r := 1); lia.
  - rewrite Pos2Z.inj_xO. apply Z.div_unique with (r := 0); lia.
Qed.

Lemma shr_iter_m (p : positive) (mrs : shr_record) :
  0 <= shr_m mrs ->
  shr_m (iter_pos shr_1 p mrs) = shr_m mrs / 2 ^ Zpos p.
Proof.
  revert mrs. induction p as [p IH|p IH|]; intros mrs H; simpl iter_pos.
  - assert (H1 : 0 <= shr_m (shr_1 mrs))
      by (rewrite shr_1_m by exact H; apply Z.div_pos; lia).
    assert (H2 : 0 <= shr_m (iter_pos shr_1 p (shr_1 mrs)))
      by (rewrite IH by exact H1; apply Z.div_pos; [exact H1|lia]).
    rewrite IH by exact H2. rewrite IH by exact H1. rewrite shr_1_m by exact H.
    assert (Hp : 0 < 2 ^ Z.pos p) by (apply Z.pow_pos_nonneg; lia).
    rewrite !Z.div_div by lia. f_equal.
    replace (Z.pos p~1) with (Z.pos p + Z.pos p + 1) by lia.
    rewrite !Z.pow_add_r by lia. ring.
  - assert (H2 : 0 <= shr_m (iter_pos shr_1 p mrs))
      by (rewrite IH by exact H; apply Z.div_pos; [exact H|lia]).
    rewrite IH by exact H2. rewrite IH by exact H.
    assert (Hp : 0 < 2 ^ Z.pos p) by (apply Z.pow_pos_nonneg; lia).
    rewrite Z.div_div by lia. f_equal.
    replace (Z.pos p~0) with (Z.pos p + Z.pos p) by lia.
    rewrite !Z.pow_add_r by lia. ring.
  - rewrite shr_1_m by exact H. reflexivity.
Qed.

Lemma shr_record_of_loc_m (m : Z) (l : location) :
  shr_m (shr_record_of_loc m l) = m.
Proof. destruct l as [|[]]; reflexivity. Qed.

Lemma fexp64_normal (e : Z) : -1021 <= e -> fexp 53 1024 e = e - 53.
Proof. intros H. unfold fexp, emin. lia. Qed.

(** The first or second shift of [binary_round_aux] on a mantissa of at
    least 53 bits: it is cut to 53 bits. *)
Lemma shr_fexp_normal (m e : Z) (l : location) :
  0 < m -> 53 <= Zdigits2 m -> -1021 <= Zdigits2 m + e ->
  shr_m (fst (shr_fexp 53 1024 m e l)) = m / 2 ^ (Zdigits2 m - 53)
  /\ snd (shr_fexp 53 1024 m e l) = e + (Zdigits2 m - 53).
Proof.
  intros Hm Hd He. unfold shr_fexp. rewrite fexp64_normal by exact He.
  replace (Zdigits2 m + e - 53 - e) with (Zdigits2 m - 53) by lia.
  unfold shr. destruct (Zdigits2 m - 53) as [|p|p] eqn:E; try lia.
  - simpl. rewrite shr_record_of_loc_m, Z.div_1_r. split; [reflexivity|lia].
  - simpl. rewrite shr_iter_m by (rewrite shr_record_of_loc_m; lia).
    rewrite shr_record_of_loc_m. split; reflexivity.
Qed.

Lemma round_nearest_even_bounds (m : Z) (l : location) :
  m <= round_nearest_even m l <= m + 1.
Proof.
  unfold round_nearest_even. destruct l as [|[]]; try lia.
  destruct (Z.even m); lia.
Qed.

(** Rounding a positive mantissa of at least 53 bits whose exponent is
    within range gives a finite normal number: the mantissa cut to 53 bits
    or its successor, the exponent raised by one when the successor
    reaches 2^53. *)
Lemma binary_round_aux_normal_tight (s : bool) (m e : Z) (l : location) :
  0 < m -> 53 <= Zdigits2 m ->
  -1021 <= Zdigits2 m + e -> Zdigits2 m + e <= 1023 ->
  exists (m' : positive) (e' : Z),
    binary_round_aux 53 1024 s m e l = S754_finite s m' e'
    /\ 2 ^ 52 <= Zpos m' < 2 ^ 53
    /\ ((e' = Zdigits2 m + e - 53
         /\ m / 2 ^ (Zdigits2 m - 53) <= Zpos m' <= m / 2 ^ (Zdigits2 m - 53) + 1)
        \/ (e' = Zdigits2 m + e - 52 /\ Zpos m' = 2 ^ 52
            /\ m / 2 ^ (Zdigits2 m - 53) = 2 ^ 53 - 1)).
Proof.
  intros Hm Hd Hlo Hhi. unfold binary_round_aux.
  destruct (shr_fexp_normal m e l Hm Hd Hlo) as [H1m H1e].
  destruct (shr_fexp 53 1024 m e l) as [mrs1 e1]. cbn [fst snd] in *.
  set (D := Zdigits2 m) in *.
  pose proof (Zdigits2_bounds m Hm) as Hb. fold D in Hb.
  assert (Hma : 2 ^ 52 <= shr_m mrs1 < 2 ^ 53).
  { rewrite H1m. split.
    - apply Z.div_le_lower_bound; [apply Z.pow_pos_nonneg; lia|].
      rewrite <- Z.pow_add_r by lia. replace (D - 53 + 52) with (D - 1) by lia.
      lia.
    - apply Z.div_lt_upper_bound; [apply Z.pow_pos_nonneg; lia|].
      rewrite <- Z.pow_add_r by lia. replace (D - 53 + 53) with D by lia. lia. }
  pose proof (round_nearest_even_bounds (shr_m mrs1) (loc_of_shr_record mrs1)) as Hr.
  set (mb := round_nearest_even (shr_m mrs1) (loc_of_shr_record mrs1)) in *.
  assert (Hmb : 0 < mb) by (pose proof (Z.pow_pos_nonneg 2 52); lia).
  assert (Hcase : mb < 2 ^ 53 \/ mb = 2 ^ 53) by lia.
  assert (Hd2 : (Zdigits2 mb = 53 /\ mb < 2 ^ 53)
                \/ (Zdigits2 mb = 54 /\ mb = 2 ^ 53)).
  { destruct Hcase as [Hlt|Heq].
    - left. split; [|exact Hlt]. apply Zdigits2_unique; lia.
    - right. split; [|exact Heq]. rewrite Heq. reflexivity. }
  assert (H53 : 53 <= Zdigits2 mb) by lia.
  assert (Hlo2 : -1021 <= Zdigits2 mb + e1) by lia.
  destruct (shr_fexp_normal mb e1 loc_Exact Hmb H53 Hlo2) as [H2m H2e].
  destruct (shr_fexp 53 1024 mb e1 loc_Exact) as [mrs2 e2]. cbn [fst snd] in *.
  assert (Hm2 : 2 ^ 52 <= shr_m mrs2 < 2 ^ 53
                /\ ((e2 = D + e - 53
                     /\ shr_m mrs1 <= shr_m mrs2 <= shr_m mrs1 + 1)
                    \/ (e2 = D + e - 52 /\ shr_m mrs2 = 2 ^ 52
                        /\ shr_m mrs1 = 2 ^ 53 - 1))).
  { rewrite H2m. destruct Hd2 as [[Hd2 Hlt]|[Hd2 Hmbe]]; rewrite Hd2 in *.
    - replace (53 - 53) with 0 by lia. rewrite Z.pow_0_r, Z.div_1_r.
      split; [lia|]. left. lia.
    - replace (54 - 53) with 1 by lia. rewrite Hmbe.
      change (2 ^ 53 / 2 ^ 1) with (2 ^ 52).
      split; [split; [lia | reflexivity]|]. right.
      split; [lia|]. split; [reflexivity | lia]. }
  rewrite H1m in Hm2.
  destruct Hm2 as [Hm2 He2].
  destruct (shr_m mrs2) as [|p|p] eqn:Ep;
    try (pose proof (Z.pow_pos_nonneg 2 52); lia).
  replace (e2 <=? 1024 - 53) with true
    by (symmetry; apply Z.leb_le; lia).
  exists p, e2. split; [reflexivity|]. split; [exact Hm2|]. exact He2.
Qed.


Lemma iter_xO_pow (p d : positive) :
  Zpos (Pos.iter xO p d) = Zpos p * 2 ^ Zpos d.
Proof.
  induction d as [|d IH] using Pos.peano_ind.
  - simpl. lia.
  - rewrite Pos.iter_succ, Pos2Z.inj_xO, IH, Pos2Z.inj_succ, Z.pow_succ_r by lia.
    ring.
Qed.

Lemma Zdigits2_range (z : Z) :
  0 < z -> z < 2 ^ 53 -> 1 <= Zdigits2 z <= 53.
Proof.
  intros H0 H. pose proof (Zdigits2_bounds z H0) as Hb.
  rewrite Zdigits2_log2 in * by exact H0.
  pose proof (Z.log2_nonneg z).
  assert (Z.log2 z < 53) by (apply Z.log2_lt_pow2; lia). lia.
Qed.

Lemma normal_digits (m : positive) :
  2 ^ 52 <= Zpos m < 2 ^ 53 -> Zdigits2 (Zpos m) = 53.
Proof. intros H. apply Zdigits2_unique; [exact H | lia]. Qed.







(** ** Sizes through the float arithmetic *)










(** ** Image information *)

(** [n / 1024] is exact: the float is [n] times 2^-10. *)
Lemma truediv_1024_exact (n : Z) :
  0 < n < 2 ^ 53 ->
  exists (m : positive) (e : Z),
    PyFloat.int_truediv n 1024 = Ok (S754_finite false m e)
    /\ -62 <= e <= -10
    /\ Zpos m * 2 ^ (e + 62) = n * 2 ^ 52.
Proof.
  intros [H0 H]. unfold PyFloat.int_truediv.
  replace (n =? 0) with false by (symmetry; apply Z.eqb_neq; lia).
  replace (n <? 0) with false by (symmetry; apply Z.ltb_ge; lia).
  cbn [Z.eqb Z.ltb Z.compare xorb].
  rewrite Z.abs_eq by lia. change (Z.abs 1024) with 1024.
  unfold SFdiv_core_binary, PyFloat.prec, PyFloat.emax.
  pose proof (Zdigits2_range n H0 H) as Hd.
  pose proof (Zdigits2_bounds n H0) as Hb.
  change (Zdigits2 1024) with 11.
  set (d := Zdigits2 n) in *.
  rewrite fexp64_normal by lia.
  replace (Z.min (d + 0 - (11 + 0) - 53) (0 - 0)) with (d - 64) by lia.
  replace (0 - 0 - (d - 64)) with (64 - d) by lia.
  destruct (64 - d) as [|s|s] eqn:Es; try lia.
  rewrite Z.shiftl_mul_pow2 by lia. rewrite <- Es.
  assert (Hpow : 2 ^ (64 - d) = 2 * 2 ^ (53 - d) * 1024).
  { replace (64 - d) with (1 + (53 - d) + 10) by lia.
    rewrite !Z.pow_add_r by lia. reflexivity. }
  set (m0 := n * 2 ^ (53 - d)).
  assert (Hm0 : 2 ^ 52 <= m0 < 2 ^ 53).
  { unfold m0.
    assert (Hp : 0 < 2 ^ (53 - d)) by (apply Z.pow_pos_nonneg; lia).
    replace (2 ^ 52) with (2 ^ (d - 1) * 2 ^ (53 - d))
      by (rewrite <- Z.pow_add_r by lia; f_equal; lia).
    replace (2 ^ 53) with (2 ^ d * 2 ^ (53 - d))
      by (rewrite <- Z.pow_add_r by lia; f_equal; lia).
    nia. }
  assert (Hnum : n * 2 ^ (64 - d) = (2 * m0) * 1024) by (rewrite Hpow; unfold m0; ring).
  rewrite Hnum.
  assert (Hq : Z.div_eucl (2 * m0 * 1024) 1024 = (2 * m0, 0)).
  { pose proof (Z.div_eucl_eq (2 * m0 * 1024) 1024 ltac:(lia)) as He.
    pose proof (Z.mod_pos_bound (2 * m0 * 1024) 1024 ltac:(lia)) as Hr.
    unfold Z.modulo in Hr.
    destruct (Z.div_eucl (2 * m0 * 1024) 1024) as [q r].
    f_equal; lia. }
  rewrite Hq.
  destruct m0 as [|p|p] eqn:Ep; try (pose proof (Z.pow_pos_nonneg 2 52); lia).
  change (2 * Z.pos p) with (Z.pos p~0).
  change (new_location 1024 0) with loc_Exact.
  assert (Hbp : Zdigits2 (Z.pos p) = 53) by (apply normal_digits; exact Hm0).
  assert (Hbq : Zdigits2 (Z.pos p~0) = 54).
  { simpl in *. lia. }
  unfold binary_round_aux, shr_fexp.
  rewrite Hbq. rewrite fexp64_normal by lia.
  replace (54 + (d - 64) - 53 - (d - 64)) with 1 by lia.
  cbn [shr shr_record_of_loc iter_pos shr_1 loc_of_shr_record shr_m orb
       round_nearest_even].
  rewrite Hbp. rewrite fexp64_normal by lia.
  replace (53 + (d - 64 + 1) - 53 - (d - 64 + 1)) with 0 by lia.
  cbn [shr shr_record_of_loc shr_m].
  replace (d - 64 + 1 <=? 1024 - 53) with true
    by (symmetry; apply Z.leb_le; lia).
  exists p, (d - 64 + 1). split; [reflexivity|]. split; [lia|].
  unfold m0 in Ep. rewrite <- Ep.
  replace (d - 64 + 1 + 62) with (d - 1) by lia.
  rewrite <- Z.mul_assoc, <- Z.pow_add_r by lia. f_equal. f_equal. lia.
Qed.

Lemma to_int_of_scaled (m : positive) (e n : Z) :
  -62 <= e <= -10 -> Zpos m * 2 ^ (e + 62) = n * 2 ^ 52 ->
  PyFloat.to_int (S754_finite false m e) = Ok (n / 1024).
Proof.
  intros He Hv. unfold PyFloat.to_int. cbv zeta. f_equal.
  rewrite Z.shiftl_div_pow2 by lia.
  set (c := 2 ^ (- e - 10)).
  assert (Hc : 0 < c) by (apply Z.pow_pos_nonneg; lia).
  assert (Hp : 0 < 2 ^ (e + 62)) by (apply Z.pow_pos_nonneg; lia).
  assert (H52 : 2 ^ 52 = c * 2 ^ (e + 62)).
  { unfold c. rewrite <- Z.pow_add_r by lia. f_equal. lia. }
  assert (Hm : Z.pos m = n * c).
  { rewrite H52 in Hv. apply Z.mul_cancel_r with (p := 2 ^ (e + 62)); [lia|].
    rewrite Hv. ring. }
  replace (2 ^ (- e)) with (1024 * c).
  2:{ unfold c. change 1024 with (2 ^ 10). rewrite <- Z.pow_add_r by lia.
      f_equal. lia. }
  rewrite Hm. apply Z.div_mul_cancel_r; lia.
Qed.

(** X21. [get_image_info] fails exactly when the bytes do not open, with
    the decoder's exception. Otherwise it reports the width, height,
    format and mode of the opened image, and a [size_kb] that is the byte
    count divided by 1024 without any rounding error (for fewer than 2^53
    bytes); its integer part is the number of whole kilobytes. *)
Theorem get_image_info_outcome :
  forall (pil : PIL) (identified : bytes -> option string) (image_data : bytes),
    Z.of_nat (List.length image_data) < 2 ^ 53 ->
    match image_open pil image_data with
    | Raise e => get_image_info pil identified image_data = Raise e
    | Ok image =>
        exists size_kb,
          get_image_info pil identified image_data
          = Ok (mkImageInfo (Z.of_N (width image)) (Z.of_N (height image))
                  (identified image_data) (mode_name (mode image)) size_kb)
          /\ kilobytes_exact size_kb (Z.of_nat (List.length image_data))
          /\ PyFloat.to_int size_kb
             = Ok (Z.of_nat (List.length image_data) / 1024)
    end.
Proof.
  intros pil identified image_data Hlen. unfold get_image_info.
  destruct (image_open pil image_data) as [image|e]; [|reflexivity].
  cbn [bind]. destruct image_data as [|b rest].
  - exists (S754_zero false). split; [reflexivity|]. split; reflexivity.
  - destruct (truediv_1024_exact (Z.of_nat (List.length (b :: rest))))
      as (m & e & Hx & He & Hv).
    + split; [simpl List.length; lia | exact Hlen].
    + rewrite Hx. cbn [bind]. eexists. split; [reflexivity|].
      split; [split; [lia | exact Hv]|].
      apply to_int_of_scaled; assumption.
Qed.

Lemma get_image_info_outcome_witness :
  exists size_kb,
    get_image_info Sample.pil (fun _ => Some "PNG")
      (List.repeat Byte.x00 1536)
    = Ok (mkImageInfo 1536 1 (Some "PNG") "RGB" size_kb)
    /\ kilobytes_exact size_kb 1536
    /\ PyFloat.to_int size_kb = Ok 1.
Proof.
  exact (get_image_info_outcome Sample.pil (fun _ => Some "PNG")
           (List.repeat Byte.x00 1536) eq_refl).
Defined.

(** ** Cover on the page *)




(** ** The progress bar *)

Lemma truediv_self (a : Z) :
  0 < a < 2 ^ 53 -> PyFloat.int_truediv a a = Ok float_one.
Proof.
  intros [H0 H]. unfold PyFloat.int_truediv.
  replace (a =? 0) with false by (symmetry; apply Z.eqb_neq; lia).
  replace (a <? 0) with false by (symmetry; apply Z.ltb_ge; lia).
  rewrite !Z.abs_eq by lia.
  unfold SFdiv_core_binary, PyFloat.prec, PyFloat.emax.
  pose proof (Zdigits2_range a H0 H) as Hd.
  set (d := Zdigits2 a) in *.
  rewrite fexp64_normal by lia.
  replace (Z.min (d + 0 - (d + 0) - 53) (0 - 0)) with (-53) by lia.
  change (0 - 0 - -53) with 53.
  cbv beta iota. rewrite Z.shiftl_mul_pow2 by lia.
  assert (Hq : Z.div_eucl (a * 2 ^ 53) a = (2 ^ 53, 0)).
  { assert (Hqr : Z.div_eucl (a * 2 ^ 53) a
                  = ((a * 2 ^ 53) / a, (a * 2 ^ 53) mod a))
      by (unfold Z.div, Z.modulo; destruct (Z.div_eucl (a * 2 ^ 53) a);
          reflexivity).
    rewrite Hqr, (Z.mul_comm a), Z.div_mul, Z.mod_mul by lia. reflexivity. }
  rewrite Hq.
  replace (new_location a 0) with loc_Exact
    by (unfold new_location; destruct (Z.even a); reflexivity).
  reflexivity.
Qed.

Lemma truediv_below_one (a b : Z) :
  0 < a -> a < b -> b < 2 ^ 53 ->
  exists (m : positive) (e : Z),
    PyFloat.int_truediv a b = Ok (S754_finite false m e)
    /\ 2 ^ 52 <= Zpos m < 2 ^ 53 /\ -105 <= e < -52.
Proof.
  intros Ha0 Hab Hb. unfold PyFloat.int_truediv.
  replace (b =? 0) with false by (symmetry; apply Z.eqb_neq; lia).
  replace (a =? 0) with false by (symmetry; apply Z.eqb_neq; lia).
  replace (a <? 0) with false by (symmetry; apply Z.ltb_ge; lia).
  replace (b <? 0) with false by (symmetry; apply Z.ltb_ge; lia).
  rewrite !Z.abs_eq by lia.
  unfold SFdiv_core_binary, PyFloat.prec, PyFloat.emax.
  pose proof (Zdigits2_range a Ha0 ltac:(lia)) as Hda.
  pose proof (Zdigits2_range b ltac:(lia) Hb) as Hdb.
  pose proof (Zdigits2_bounds a Ha0) as Hba.
  pose proof (Zdigits2_bounds b ltac:(lia)) as Hbb.
  set (d1 := Zdigits2 a) in *. set (d2 := Zdigits2 b) in *.
  assert (Hd12 : d1 <= d2).
  { destruct (Z.lt_ge_cases d2 d1) as [Hlt|]; [|lia].
    exfalso. assert (2 ^ d2 <= 2 ^ (d1 - 1))
      by (apply Z.pow_le_mono_r; lia). lia. }
  rewrite fexp64_normal by lia.
  replace (Z.min (d1 + 0 - (d2 + 0) - 53) (0 - 0)) with (d1 - d2 - 53) by lia.
  replace (0 - 0 - (d1 - d2 - 53)) with (53 + d2 - d1) by lia.
  destruct (53 + d2 - d1) as [|s|s] eqn:Es; try lia.
  rewrite Z.shiftl_mul_pow2 by lia.
  assert (Hq : Z.div_eucl (a * 2 ^ Z.pos s) b
               = ((a * 2 ^ Z.pos s) / b, (a * 2 ^ Z.pos s) mod b))
    by (unfold Z.div, Z.modulo; destruct (Z.div_eucl (a * 2 ^ Z.pos s) b);
        reflexivity).
  rewrite Hq. cbn [xorb].
  set (q := a * 2 ^ Z.pos s / b).
  assert (Hs : Z.pos s = 53 + d2 - d1) by lia.
  assert (Hp : 0 < 2 ^ Z.pos s) by (apply Z.pow_pos_nonneg; lia).
  assert (Hlow : 2 ^ 52 <= q).
  { unfold q. apply Z.div_le_lower_bound; [lia|].
    assert (2 ^ (d1 - 1) * 2 ^ Z.pos s = 2 ^ 52 * 2 ^ d2)
      by (rewrite <- !Z.pow_add_r by lia; f_equal; lia).
    nia. }
  assert (Hsplit : 2 ^ Z.pos s = 2 ^ (Z.pos s - 53) * 2 ^ 53)
    by (rewrite <- Z.pow_add_r by lia; f_equal; lia).
  assert (Hp' : 0 < 2 ^ (Z.pos s - 53)) by (apply Z.pow_pos_nonneg; lia).
  assert (Hup : q < 2 ^ (Z.pos s - 53) * (2 ^ 53 - 1)).
  { unfold q. apply Z.div_lt_upper_bound; [lia|]. nia. }
  assert (Hq0 : 0 < q) by (pose proof (Z.pow_pos_nonneg 2 52); lia).
  pose proof (Zdigits2_bounds q Hq0) as Hbq.
  assert (Hdq : 53 <= Zdigits2 q <= Z.pos s).
  { split.
    - destruct (Z.lt_ge_cases (Zdigits2 q) 53) as [Hlt|]; [|assumption].
      exfalso. assert (2 ^ Zdigits2 q <= 2 ^ 52)
        by (apply Z.pow_le_mono_r; lia). lia.
    - destruct (Z.lt_ge_cases (Z.pos s) (Zdigits2 q)) as [Hlt|]; [|lia].
      exfalso. assert (2 ^ Z.pos s <= 2 ^ (Zdigits2 q - 1))
        by (apply Z.pow_le_mono_r; lia). nia. }
  destruct (binary_round_aux_normal_tight false q (d1 - d2 - 53)
              (new_location b (a * 2 ^ Z.pos s mod b)))
    as (m & e & -> & Hm & He); try lia.
  exists m, e. split; [reflexivity|]. split; [exact Hm|].
  destruct He as [[He _]|(He & _ & Hfull)]; [lia|].
  assert (Hc : Zdigits2 q < Z.pos s \/ Zdigits2 q = Z.pos s) by lia.
  destruct Hc as [Hc|Hc]; [lia|]. exfalso.
  rewrite Hc in Hfull.
  assert (q / 2 ^ (Z.pos s - 53) < 2 ^ 53 - 1)
    by (apply Z.div_lt_upper_bound; [lia|exact Hup]).
  lia.
Qed.

Lemma truediv_is_one_iff (a b : Z) :
  0 < a -> a <= b -> b < 2 ^ 53 ->
  exists x,
    PyFloat.int_truediv a b = Ok x
    /\ SFltb (S754_zero false) x = true
    /\ SFleb x float_one = true
    /\ (x = float_one <-> a = b).
Proof.
  intros Ha0 Hab Hb.
  assert (Hc : a = b \/ a < b) by lia. destruct Hc as [<-|Hlt].
  - exists float_one. rewrite truediv_self by lia.
    split; [reflexivity|]. split; [reflexivity|]. split; [reflexivity|].
    tauto.
  - destruct (truediv_below_one a b Ha0 Hlt Hb) as (m & e & -> & Hm & He).
    eexists. split; [reflexivity|]. split; [reflexivity|].
    unfold SFleb, SFcompare, float_one.
    assert (Hcmp : (e ?= -52) = Lt) by (apply Z.compare_lt_iff; lia).
    rewrite Hcmp. split; [reflexivity|].
    split; [intros Heq; inversion Heq; lia | lia].
Qed.

Lemma progress_reports_snoc_process (trace : list event) (idx : Z)
    (filename : string) :
  progress_reports (trace ++ [EvProcess idx filename]) = progress_reports trace.
Proof. induction trace as [|[]]; simpl; congruence. Qed.

Lemma progress_reports_in_range (pil : PIL) (cfg : App.Settings)
    (uploaded_files : list ImageItem) (curr total : Z) :
  In (curr, total)
     (progress_reports (fst (App.process pil cfg uploaded_files))) ->
  1 <= curr <= total /\ total = Z.of_nat (List.length uploaded_files).
Proof.
  unfold App.process. rewrite map_item_id.
  assert (Hin : forall l : list ImageItem,
             (List.length l <= List.length uploaded_files)%nat ->
             In (curr, total)
                (progress_reports
                   (expected_trace true
                      (Z.of_nat (List.length uploaded_files)) (enumerate 0 l))) ->
             1 <= curr <= total
             /\ total = Z.of_nat (List.length uploaded_files)).
  { intros l Hl Hr. rewrite progress_reports_expected in Hr.
    apply in_map_iff in Hr. destruct Hr as (i & Heq & Hi).
    apply in_seq in Hi. injection Heq as <- <-. lia. }
  destruct (batch_process_outcomes pil (App.selected_preset cfg)
              (App.custom_size cfg) (App.target_format cfg)
              (App.maintain_aspect cfg) (App.crop_to_fit cfg) (App.quality cfg)
              (App.prefix cfg) (App.suffix cfg) (App.use_numbering cfg) true
              uploaded_files)
    as [(outs & H & ->)|(pre & bad & post & outs & e & Hl & H & Hb & ->)];
    cbn [fst].
  - apply Hin. lia.
  - rewrite progress_reports_snoc_process. apply Hin.
    rewrite Hl, length_app. cbn [List.length]. lia.
Qed.

(** X23. While the page processes up to 2^53 files, every call of the
    progress callback succeeds (no division by zero) and sets the bar to
    a float above 0 and at most 1.0, the range a progress bar takes; the
    bar is full, at exactly 1.0, on the report for the last file and on no
    other. *)
Theorem progress_bar_stays_in_range :
  forall (pil : PIL) (cfg : App.Settings) (uploaded_files : list ImageItem)
         (curr total : Z),
    Z.of_nat (List.length uploaded_files) < 2 ^ 53 ->
    In (curr, total)
       (progress_reports (fst (App.process pil cfg uploaded_files))) ->
    exists value,
      App.update_bar curr total
      = Ok (value,
            "Processing image " ++ format_int curr ++ "/" ++ format_int total
              ++ "...")
      /\ SFltb (S754_zero false) value = true
      /\ SFleb value float_one = true
      /\ (value = float_one
          <-> curr = Z.of_nat (List.length uploaded_files)).
Proof.
  intros pil cfg uploaded_files curr total Hlen Hin.
  destruct (progress_reports_in_range pil cfg uploaded_files curr total Hin)
    as [Hc Ht].
  destruct (truediv_is_one_iff curr total) as (x & Hx & Hpos & Hle & Hone);
    try lia.
  exists x. unfold App.update_bar. rewrite Hx. cbn [bind].
  split; [reflexivity|]. split; [exact Hpos|]. split; [exact Hle|].
  rewrite Hone, Ht. tauto.
Qed.

Lemma progress_bar_stays_in_range_witness :
  exists value,
    App.update_bar 1 2 = Ok (value, "Processing image 1/2...")
    /\ SFltb (S754_zero false) value = true
    /\ SFleb value float_one = true
    /\ (value = float_one <-> 1 = 2).
Proof.
  apply (progress_bar_stays_in_range Sample.pil
           (App.mkSettings PASSPORT None false false None 95 "" "" false)
           [mkItem [Byte.x01] "a.png"; mkItem [Byte.x02] "b.png"] 1 2).
  - reflexivity.
  - vm_compute. left. reflexivity.
Defined.

(** ** Resizing to the same size *)

Lemma shr_1_exact (z : Z) :
  0 < z ->
  shr_1 (Build_shr_record (2 * z) false false) = Build_shr_record z false false.
Proof. destruct z as [|p|p]; try lia. reflexivity. Qed.

Lemma shr_iter_exact (p : positive) (z : Z) :
  0 < z ->
  iter_pos shr_1 p (Build_shr_record (z * 2 ^ Zpos p) false false)
  = Build_shr_record z false false.
Proof.
  revert z. induction p as [p IH|p IH|]; intros z Hz; cbn [iter_pos].
  - assert (Hp : 0 < 2 ^ Z.pos p) by (apply Z.pow_pos_nonneg; lia).
    replace (z * 2 ^ Z.pos p~1) with (2 * (z * 2 ^ Z.pos p * 2 ^ Z.pos p)).
    2:{ replace (Z.pos p~1) with (Z.pos p + Z.pos p + 1) by lia.
        rewrite !Z.pow_add_r by lia. ring. }
    rewrite shr_1_exact by nia. rewrite IH by nia. apply IH. exact Hz.
  - assert (Hp : 0 < 2 ^ Z.pos p) by (apply Z.pow_pos_nonneg; lia).
    replace (z * 2 ^ Z.pos p~0) with (z * 2 ^ Z.pos p * 2 ^ Z.pos p).
    2:{ replace (Z.pos p~0) with (Z.pos p + Z.pos p) by lia.
        rewrite !Z.pow_add_r by lia. ring. }
    rewrite IH by nia. apply IH. exact Hz.
  - replace (z * 2 ^ 1) with (2 * z) by lia. apply shr_1_exact. exact Hz.
Qed.

(** Rounding is the identity on a 53-bit mantissa followed by zeros. *)
Lemma binary_round_aux_exact (s : bool) (z : positive) (k e : Z) :
  2 ^ 52 <= Zpos z < 2 ^ 53 -> 0 <= k ->
  -1021 <= 53 + k + e -> e + k <= 971 ->
  binary_round_aux 53 1024 s (Zpos z * 2 ^ k) e loc_Exact
  = S754_finite s z (e + k).
Proof.
  intros Hz Hk Hlo Hhi.
  assert (Hp : 0 < 2 ^ k) by (apply Z.pow_pos_nonneg; lia).
  assert (Hd : Zdigits2 (Zpos z * 2 ^ k) = 53 + k).
  { apply Zdigits2_unique; [|lia].
    replace (53 + k - 1) with (52 + k) by lia.
    rewrite !Z.pow_add_r by lia. nia. }
  assert (H1 : shr_fexp 53 1024 (Zpos z * 2 ^ k) e loc_Exact
               = (Build_shr_record (Zpos z) false false, e + k)).
  { unfold shr_fexp. rewrite Hd, fexp64_normal by lia.
    replace (53 + k + e - 53 - e) with k by lia.
    unfold shr. destruct k as [|p|p]; try lia.
    - rewrite Z.pow_0_r, Z.mul_1_r, Z.add_0_r. reflexivity.
    - cbn [shr_record_of_loc]. rewrite shr_iter_exact by lia. reflexivity. }
  assert (H2 : shr_fexp 53 1024 (Zpos z) (e + k) loc_Exact
               = (Build_shr_record (Zpos z) false false, e + k)).
  { unfold shr_fexp. rewrite (normal_digits z Hz), fexp64_normal by lia.
    replace (53 + (e + k) - 53 - (e + k)) with 0 by lia. reflexivity. }
  unfold binary_round_aux. rewrite H1.
  cbn [shr_m loc_of_shr_record round_nearest_even]. rewrite H2. cbn [shr_m].
  replace (e + k <=? 1024 - 53) with true by (symmetry; apply Z.leb_le; lia).
  reflexivity.
Qed.

(** [float(n)] is exact below 2^53. *)
Lemma of_int_exact (n : Z) :
  0 < n < 2 ^ 53 ->
  exists m : positive,
    PyFloat.of_int n = Ok (S754_finite false m (Zdigits2 n - 53))
    /\ Zpos m = n * 2 ^ (53 - Zdigits2 n)
    /\ 2 ^ 52 <= Zpos m < 2 ^ 53.
Proof.
  intros [H0 H]. destruct n as [|p|p]; try lia.
  unfold PyFloat.of_int, PyFloat.prec, PyFloat.emax, binary_normalize,
    binary_round.
  pose proof (Zdigits2_range (Zpos p) H0 H) as Hd.
  pose proof (Zdigits2_bounds (Zpos p) H0) as Hb.
  change (Zdigits2 (Z.pos p)) with (Z.pos (digits2_pos p)) in *.
  set (D := Z.pos (digits2_pos p)) in *.
  rewrite fexp64_normal by lia. unfold shl_align.
  replace (D + 0 - 53 - 0) with (D - 53) by lia.
  destruct (D - 53) as [|q|d] eqn:E; try lia.
  - assert (HD : D = 53) by lia. rewrite HD in Hb.
    pose proof (binary_round_aux_exact false p 0 0) as Hr.
    rewrite Z.pow_0_r, Z.mul_1_r in Hr. rewrite Hr by lia.
    exists p. rewrite HD. split; [reflexivity|].
    split; [rewrite Z.pow_0_r; lia | exact Hb].
  - assert (Hd53 : Z.pos d = 53 - D) by lia.
    assert (Hmz : 2 ^ 52 <= Z.pos (Pos.iter xO p d) < 2 ^ 53).
    { rewrite iter_xO_pow, Hd53.
      assert (Hp : 0 < 2 ^ (53 - D)) by (apply Z.pow_pos_nonneg; lia).
      replace (2 ^ 52) with (2 ^ (D - 1) * 2 ^ (53 - D))
        by (rewrite <- Z.pow_add_r by lia; f_equal; lia).
      replace (2 ^ 53) with (2 ^ D * 2 ^ (53 - D))
        by (rewrite <- Z.pow_add_r by lia; f_equal; lia).
      nia. }
    pose proof (binary_round_aux_exact false (Pos.iter xO p d) 0 (D + 0 - 53))
      as Hr.
    rewrite Z.pow_0_r, Z.mul_1_r in Hr. rewrite Hr by lia.
    exists (Pos.iter xO p d).
    replace (D + 0 - 53 + 0) with (Z.neg d) by lia.
    split; [reflexivity|]. split; [|exact Hmz].
    rewrite iter_xO_pow, Hd53. reflexivity.
Qed.

(** [n * 1.0] is [float(n)], and [int] gives [n] back. *)
Lemma int_mul_one (n : Z) :
  0 < n < 2 ^ 53 ->
  (x <- PyFloat.int_mul n float_one ;; PyFloat.to_int x) = Ok n.
Proof.
  intros Hn. destruct (of_int_exact n Hn) as (m & Hf & Hv & Hm).
  destruct Hn as [H0 H].
  pose proof (Zdigits2_range n H0 H) as Hd.
  unfold PyFloat.int_mul. rewrite Hf. cbn [bind]. unfold float_one.
  cbn [SFmul xorb]. unfold PyFloat.prec, PyFloat.emax.
  rewrite Pos2Z.inj_mul.
  change (Z.pos 4503599627370496) with (2 ^ 52).
  rewrite binary_round_aux_exact by lia.
  replace (Zdigits2 n - 53 + -52 + 52) with (Zdigits2 n - 53) by lia.
  unfold PyFloat.to_int. cbv zeta. f_equal.
  assert (Hc : Zdigits2 n = 53 \/ Zdigits2 n < 53) by lia.
  destruct Hc as [Hc|Hc].
  - rewrite Hc in *. change (53 - 53) with 0 in *.
    rewrite Z.shiftl_0_r, Hv, Z.pow_0_r. lia.
  - rewrite Z.shiftl_div_pow2 by lia.
    replace (- (Zdigits2 n - 53)) with (53 - Zdigits2 n) by lia.
    rewrite Hv. apply Z.div_mul.
    assert (0 < 2 ^ (53 - Zdigits2 n)) by (apply Z.pow_pos_nonneg; lia). lia.
Qed.

Lemma resize_image_on_own_size (pil : PIL) (rgb : Image)
    (preset : ResizePreset) (custom_size : option (Z * Z))
    (maintain_aspect : bool) :
  mode rgb = M_RGB ->
  get_preset_dimensions preset custom_size = Ok (size rgb) ->
  float_sized (Z.of_N (width rgb)) -> float_sized (Z.of_N (height rgb)) ->
  exists out,
    resize_image pil rgb preset custom_size maintain_aspect = Ok out
    /\ mode out = M_RGB /\ size out = size rgb
    /\ forall x y,
         PILImage.inside rgb x y = true ->
         PILImage.opaque (px out x y) = PILImage.opaque (px rgb x y).
Proof.
  intros Hmode Hd Hw Hh. unfold resize_image. rewrite Hd. unfold size.
  cbn [bind]. rewrite resize_image_to_rgb_cases, Hmode. cbn [bind].
  assert (Hcopy : pil_resize pil rgb (Z.of_N (width rgb), Z.of_N (height rgb))
                  = Ok rgb).
  { unfold pil_resize, size. cbn [fst snd]. rewrite !Z.eqb_refl. reflexivity. }
  destruct maintain_aspect.
  - unfold size. rewrite !truediv_self by exact Hw.
    cbn [bind]. rewrite truediv_self by exact Hh. cbn [bind].
    change (PyFloat.min float_one float_one) with float_one.
    rewrite !int_mul_one by assumption. cbn [bind]. rewrite Hcopy.
    cbn [bind]. unfold PILImage.new.
    replace ((Z.of_N (width rgb) <? 0) || (Z.of_N (height rgb) <? 0))
      with false
      by (symmetry; apply orb_false_iff; split; apply Z.ltb_ge; lia).
    cbn [bind]. eexists. split; [reflexivity|].
    rewrite !Z.sub_diag. change (0 / 2) with 0.
    cbn [PILImage.paste mode width height px carries_alpha].
    rewrite !N2Z.id. split; [reflexivity|]. split; [reflexivity|].
    intros x y Hin. rewrite !Z.sub_0_r, Hin. reflexivity.
  - rewrite Hcopy. exists rgb. auto.
Qed.
(** X24. Resizing again changes nothing: when [resize_image] has returned
    an image for a target below 2^53, a second call on that image with the
    same target, with either strategy, returns an image of the same size
    with the same colour at every pixel. The ratio of the second call is
    exactly 1.0 and the scaled size is the size itself, so no resampling
    takes place and Fit pastes at the origin. *)
Theorem resize_image_twice_changes_nothing :
  forall (pil : PIL) (image out : Image) (preset : ResizePreset)
         (custom_size : option (Z * Z)) (first_fit second_fit : bool)
         (target_width target_height : Z),
    get_preset_dimensions preset custom_size
    = Ok (target_width, target_height) ->
    float_sized target_width -> float_sized target_height ->
    resize_image pil image preset custom_size first_fit = Ok out ->
    exists again,
      resize_image pil out preset custom_size second_fit = Ok again
      /\ mode again = M_RGB
      /\ size again = (target_width, target_height)
      /\ forall x y,
           PILImage.inside out x y = true ->
           PILImage.opaque (px again x y) = PILImage.opaque (px out x y).
Proof.
  intros pil image out preset custom_size first_fit second_fit tw th Hd Htw Hth
    Hout.
  pose proof (resize_image_mode _ _ _ _ _ _ Hout) as Hmode.
  assert (Hsize : size out = (tw, th)).
  { destruct first_fit.
    - exact (proj2 (resize_image_fit_exact _ _ _ _ _ _ _ Hd Hout)).
    - destruct (resize_image_stretch_exact pil image preset custom_size tw th Hd)
        as (out' & Hout' & _ & Hs); [unfold float_sized in *; lia ..|].
      rewrite Hout in Hout'. injection Hout' as <-. exact Hs. }
  assert (Hw : Z.of_N (width out) = tw) by (unfold size in Hsize; congruence).
  assert (Hh : Z.of_N (height out) = th) by (unfold size in Hsize; congruence).
  destruct (resize_image_on_own_size pil out preset custom_size second_fit)
    as (again & Hagain & Hm & Hs & Hpx).
  - exact Hmode.
  - rewrite Hsize. exact Hd.
  - rewrite Hw. exact Htw.
  - rewrite Hh. exact Hth.
  - exists again. split; [exact Hagain|]. split; [exact Hm|].
    split; [rewrite Hs; exact Hsize | exact Hpx].
Qed.

Lemma resize_image_twice_changes_nothing_witness :
  exists again,
    resize_image Sample.pil
      (mkImage M_RGB 8 8
         (Sample.nearest (Sample.solid M_RGB 4 2 white) 8 8))
      CUSTOM (Some (8, 8)) true = Ok again
    /\ mode again = M_RGB
    /\ size again = (8, 8)
    /\ forall x y,
         PILImage.inside
           (mkImage M_RGB 8 8
              (Sample.nearest (Sample.solid M_RGB 4 2 white) 8 8)) x y = true ->
         PILImage.opaque (px again x y)
         = PILImage.opaque
             (px (mkImage M_RGB 8 8
                    (Sample.nearest (Sample.solid M_RGB 4 2 white) 8 8)) x y).
Proof.
  apply (resize_image_twice_changes_nothing Sample.pil
           (Sample.solid M_RGB 4 2 white)
           (mkImage M_RGB 8 8
              (Sample.nearest (Sample.solid M_RGB 4 2 white) 8 8))
           CUSTOM (Some (8, 8)) false true 8 8).
  - reflexivity.
  - split; reflexivity.
  - split; reflexivity.
  - reflexivity.
Defined.
